(** * spanner-mcp: the query-plan report formatter and the plan tool handler

    A shallow embedding of [printResult], [mapToStruct], [databasePath],
    [planHandler], [getDDLHandler] and [updateDDLHandler] of [main.go] and
    of the handlers of its two earlier revisions, together with the
    properties the design document states about them and further
    properties read off the code.

    Go strings are byte sequences, modelled by [string] (a list of 8-bit
    [ascii]); Go [len] on a string is [String.length].  A Go [map] is a
    [gmap]; slices are lists.  Packages outside the repository
    (tablewriter, spanner, mapstructure, plantree) are interfaces: section
    variables or a type class. *)

From Stdlib Require Import ZArith NArith Lia Ascii OrdersEx.
From stdpp Require Import gmap strings list sorting.

Local Open Scope stdpp_scope.

(** ** Byte strings *)

Module Str.

Definition LF : ascii := "010"%char.

(** A one-character string holding a line feed, Go's ["\n"]. *)
Definition nl : string := String LF EmptyString.

(** [strings.Repeat(s, count)] for a non-negative count. *)
Fixpoint Repeat (s : string) (count : nat) : string :=
  match count with
  | O => EmptyString
  | S k => s +:+ Repeat s k
  end.

(** [strings.Join(elems, sep)]. *)
Fixpoint Join (elems : list string) (sep : string) : string :=
  match elems with
  | [] => EmptyString
  | [e] => e
  | e :: rest => e +:+ sep +:+ Join rest sep
  end.

(** The string is non-empty and its last byte is a line feed. *)
Fixpoint endsWithLF (s : string) : bool :=
  match s with
  | EmptyString => false
  | String c EmptyString => Ascii.eqb c LF
  | String _ rest => endsWithLF rest
  end.

End Str.

(** ** Decimal formatting, as [fmt] does it for integers *)

Module Fmt.

Definition digitChar (d : N) : ascii := ascii_of_N (48 + d).

(** The digit loop of the integer formatter: the least significant digit
    is produced first and placed in front of what is already there.
    [fuel] bounds the number of divisions by ten. *)
Fixpoint formatBits (fuel : nat) (u : N) (acc : string) : string :=
  match fuel with
  | O => acc
  | S fuel' =>
      if (u <? 10)%N then String (digitChar u) acc
      else formatBits fuel' (u / 10)%N (String (digitChar (u mod 10)%N) acc)
  end.

(** A number has no more decimal digits than binary ones. *)
Definition digitFuel (u : N) : nat := S (N.to_nat (N.log2 u)).

Definition formatUint (u : N) : string := formatBits (digitFuel u) u EmptyString.

(** [fmt.Sprint(n)] for an integer [n]: decimal, with a minus sign when
    negative. *)
Definition Sprint (n : Z) : string :=
  if (n <? 0)%Z then String "-"%char (formatUint (Z.to_N (- n)))
  else formatUint (Z.to_N n).

(** Padding of the verb [%*d]: blanks on the left up to [width] bytes;
    a longer number is not cut. *)
Definition padLeft (width : nat) (s : string) : string :=
  Str.Repeat " " (width - String.length s) +:+ s.

(** [fmt.Sprintf("%*d:", width, n)]. *)
Definition Sprintf_width_d_colon (width : nat) (n : Z) : string :=
  padLeft width (Sprint n) +:+ ":".

(** [fmt.Sprintf("%s %s", a, b)]. *)
Definition Sprintf_s_sp_s (a b : string) : string := a +:+ " " +:+ b.

(** Number of digits the loop produces. *)
Fixpoint countDigits (fuel : nat) (u : N) : nat :=
  match fuel with
  | O => 0
  | S fuel' => if (u <? 10)%N then 1 else S (countDigits fuel' (u / 10)%N)
  end.

End Fmt.

(** ** Plan data handed to the formatter (packages [queryplan], [plantree]) *)

(** Protocol-buffer messages are reached through pointers that may be nil;
    their generated getters answer the zero value on a nil receiver. *)
Record PlanNode_ShortRepresentation := { Description : string }.

Record PlanNode := { ShortRepresentation : option PlanNode_ShortRepresentation }.

Record PlanNode_ChildLink := { LinkVariable : string }.

Definition GetVariable (l : option PlanNode_ChildLink) : string :=
  from_option LinkVariable "" l.

Definition GetShortRepresentation (n : option PlanNode)
  : option PlanNode_ShortRepresentation :=
  n ≫= ShortRepresentation.

Definition GetDescription (r : option PlanNode_ShortRepresentation) : string :=
  from_option Description "" r.

(** [queryplan.ResolvedChildLink]: the link message and the child node it
    points at.  The slices hold pointers produced by the resolver, which
    are never nil. *)
Record ResolvedChildLink := {
  ChildLink : option PlanNode_ChildLink;
  Child : option PlanNode
}.

(** [plantree.RowWithPredicates], as far as [printResult] looks at it: three
    fields and two methods. *)
Class PlanRow (Row : Type) := {
  ID : Row → Z;
  FormatID : Row → string;
  Text : Row → string;
  Predicates : Row → list string;
  ChildLinks : Row → gmap string (list ResolvedChildLink)
}.

(** [lox.EntriesSortedByKey]: the entries of a map, ordered by key.  Go
    compares strings byte by byte, which is [String.le]. *)
Definition entryLe {V : Type} (a b : string * V) : Prop := String.le a.1 b.1.

#[global] Instance entryLe_dec {V : Type} : RelDecision (@entryLe V).
Proof. intros a b. unfold entryLe. apply _. Defined.

Definition EntriesSortedByKey {V : Type} (m : gmap string V) : list (string * V) :=
  merge_sort entryLe (map_to_list m).

(** ** The table writer (package [tablewriter]) *)

Module tablewriter.

Inductive Align := ALIGN_DEFAULT | ALIGN_CENTER | ALIGN_RIGHT | ALIGN_LEFT.

(** What a table has been told before it is rendered. *)
Record Table := {
  autoFmt : bool;
  autoWrap : bool;
  hdrAlign : Align;
  columnsAlign : list Align;
  headers : list string;
  lines : list (list string)
}.

Definition NewWriter : Table :=
  {| autoFmt := true; autoWrap := true; hdrAlign := ALIGN_DEFAULT;
     columnsAlign := []; headers := []; lines := [] |}.

Definition SetAutoFormatHeaders (auto : bool) (t : Table) : Table :=
  {| autoFmt := auto; autoWrap := autoWrap t; hdrAlign := hdrAlign t;
     columnsAlign := columnsAlign t; headers := headers t; lines := lines t |}.

Definition SetHeaderAlignment (a : Align) (t : Table) : Table :=
  {| autoFmt := autoFmt t; autoWrap := autoWrap t; hdrAlign := a;
     columnsAlign := columnsAlign t; headers := headers t; lines := lines t |}.

Definition SetColumnAlignment (keys : list Align) (t : Table) : Table :=
  {| autoFmt := autoFmt t; autoWrap := autoWrap t; hdrAlign := hdrAlign t;
     columnsAlign := keys; headers := headers t; lines := lines t |}.

Definition SetAutoWrapText (auto : bool) (t : Table) : Table :=
  {| autoFmt := autoFmt t; autoWrap := auto; hdrAlign := hdrAlign t;
     columnsAlign := columnsAlign t; headers := headers t; lines := lines t |}.

Definition SetHeader (keys : list string) (t : Table) : Table :=
  {| autoFmt := autoFmt t; autoWrap := autoWrap t; hdrAlign := hdrAlign t;
     columnsAlign := columnsAlign t; headers := keys; lines := lines t |}.

Definition Append (row : list string) (t : Table) : Table :=
  {| autoFmt := autoFmt t; autoWrap := autoWrap t; hdrAlign := hdrAlign t;
     columnsAlign := columnsAlign t; headers := headers t;
     lines := lines t ++ [row] |}.

End tablewriter.

(** Go's [error]; [None] is nil. *)
Definition error : Type := string.

(** ** [printResult] *)

Section PrintResult.

Context {Row : Type} `{!PlanRow Row}.

(** [Render]: the text a table writes to its output when rendered. *)
Variable Render : tablewriter.Table → string.

(** Lines 237-246: the table is configured, every row appended, the
    header set. *)
Definition buildTable (rows : list Row) : tablewriter.Table :=
  let table := tablewriter.NewWriter in
  let table := tablewriter.SetAutoFormatHeaders false table in
  let table := tablewriter.SetHeaderAlignment tablewriter.ALIGN_LEFT table in
  let table :=
    tablewriter.SetColumnAlignment
      [tablewriter.ALIGN_RIGHT; tablewriter.ALIGN_LEFT] table in
  let table := tablewriter.SetAutoWrapText false table in
  let table :=
    fold_left (λ table row, tablewriter.Append [FormatID row; Text row] table)
      rows table in
  tablewriter.SetHeader ["ID"; "Operator"] table.

(** Lines 247-249: the builder after the table had its chance to render. *)
Definition renderTable (rows : list Row) (b : string) : string :=
  if decide (0 < length rows) then b +:+ Render (buildTable rows) else b.

(** Lines 251-256. *)
Definition maxIDLength (rows : list Row) : nat :=
  fold_left
    (λ maxIDLength row,
       let length := String.length (Fmt.Sprint (ID row)) in
       if decide (maxIDLength < length) then length else maxIDLength)
    rows 0.

(** Lines 262-269: the loop over one row's predicates; [i] is the index
    of the next one. *)
Fixpoint predicatePass (maxIDLength : nat) (id : Z) (i : nat)
    (rest : list string) (prefix : string) (predicates : list string)
  : string * list string :=
  match rest with
  | [] => (prefix, predicates)
  | predicate :: rest' =>
      let prefix :=
        if decide (i = 0) then Fmt.Sprintf_width_d_colon maxIDLength id
        else Str.Repeat " " (maxIDLength + 1) in
      predicatePass maxIDLength id (S i) rest' prefix
        (predicates ++ [Fmt.Sprintf_s_sp_s prefix predicate])
  end.

(** Lines 284-290: the function mapped over the links of one type. *)
Definition describeLink (item : ResolvedChildLink) : string :=
  let varName := GetVariable (ChildLink item) in
  if decide (varName ≠ "") then
    "$" +:+ GetVariable (ChildLink item) +:+ "=" +:+
      GetDescription (GetShortRepresentation (Child item))
  else GetDescription (GetShortRepresentation (Child item)).

(** Lines 273-296: the body of the loop over the sorted entries, on the
    local state (prefix, i, parameters). *)
Definition childLinkStep (maxIDLength : nat) (id : Z)
    (st : string * nat * list string) (t : string * list ResolvedChildLink)
  : string * nat * list string :=
  let '(prefix, i, parameters) := st in
  let typ := t.1 in
  let childLinks := t.2 in
  if decide (typ = "") then (prefix, i, parameters)
  else
    let prefix :=
      if decide (i = 0) then Fmt.Sprintf_width_d_colon maxIDLength id
      else Str.Repeat " " (maxIDLength + 1) in
    let join := Str.Join (describeLink <$> childLinks) ", " in
    if decide (join = "") then (prefix, i, parameters)
    else
      let i := S i in
      let typePartStr := if decide (typ ≠ "") then typ +:+ ": " else "" in
      (prefix, i, parameters ++ [prefix +:+ " " +:+ typePartStr +:+ join]).

(** Lines 260-298: the body of the loop over the rows, on the two
    accumulated slices. *)
Definition rowStep (maxIDLength : nat) (acc : list string * list string)
    (row : Row) : list string * list string :=
  let '(predicates, parameters) := acc in
  let prefix := "" in
  let '(prefix, predicates) :=
    predicatePass maxIDLength (ID row) 0 (Predicates row) prefix predicates in
  let i := 0 in
  let '(_, _, parameters) :=
    fold_left (childLinkStep maxIDLength (ID row))
      (EntriesSortedByKey (ChildLinks row)) (prefix, i, parameters) in
  (predicates, parameters).

(** The slices [predicates] and [parameters] when the loop is over. *)
Definition collect (rows : list Row) : list string * list string :=
  fold_left (rowStep (maxIDLength rows)) rows ([], []).

(** Lines 300-305. *)
Definition writePredicates (predicates : list string) (b : string) : string :=
  if decide (0 < length predicates) then
    fold_left (λ b s, b +:+ (" " +:+ s +:+ Str.nl)) predicates
      (b +:+ ("Predicates(identified by ID):" +:+ Str.nl))
  else b.

Definition printResult (rows : list Row) : string * option error :=
  let b := "" in
  let b := renderTable rows b in
  let '(predicates, parameters) := collect rows in
  let b := writePredicates predicates b in
  (b, None).

(** What a row offers besides its child links. *)
Definition shown (row : Row) : Z * list string * string * string :=
  (ID row, Predicates row, FormatID row, Text row).

Definition sameShown (a b : Row) : Prop := shown a = shown b.

End PrintResult.

(** ** The plan tool handler *)

(** [databasePath]. *)
Definition databasePath (project instance database : string) : string :=
  "projects/" +:+ project +:+ "/instances/" +:+ instance +:+
  "/databases/" +:+ database.

(** ** Reading an ID back from a prefix *)

Module Read.

Definition digitValue (c : ascii) : option N :=
  let n := N_of_ascii c in
  if ((48 <=? n) && (n <=? 57))%N then Some (n - 48)%N else None.

(** The number spelled by the leading digits of [s], continuing [acc]. *)
Fixpoint readUintFrom (acc : N) (s : string) : N :=
  match s with
  | EmptyString => acc
  | String c rest =>
      match digitValue c with
      | Some d => readUintFrom (10 * acc + d)%N rest
      | None => acc
      end
  end.

Fixpoint skipBlanks (s : string) : string :=
  match s with
  | EmptyString => EmptyString
  | String c rest => if Ascii.eqb c " " then skipBlanks rest else s
  end.

(** The integer at the start of a line: blanks, an optional minus sign,
    digits. *)
Definition readID (s : string) : Z :=
  match skipBlanks s with
  | EmptyString => 0%Z
  | String c rest =>
      if Ascii.eqb c "-" then (- Z.of_N (readUintFrom 0 rest))%Z
      else Z.of_N (readUintFrom 0 (String c rest))
  end.

Definition startsWithDigit (s : string) : Prop :=
  ∃ (d : N) (rest : string), (d < 10)%N ∧ s = String (Fmt.digitChar d) rest.

End Read.

(** The string contains a slash. *)
Fixpoint hasSlash (s : string) : bool :=
  match s with
  | EmptyString => false
  | String c rest => Ascii.eqb c "/" || hasSlash rest
  end.

Section MapToStruct.

Context {Arguments T : Type}.

(** The zero value of [T]. *)
Variable zeroT : T.

(** [mapstructure.Decode(m, &result)]: what [result] holds afterwards, and
    the error. *)
Variable Decode : Arguments → T → T * option error.

Definition mapToStruct (m : Arguments) : T * option error :=
  let zero := zeroT in
  let result := zeroT in
  let '(result, err) := Decode m result in
  match err with
  | Some e => (zero, Some e)
  | None => (result, None)
  end.

End MapToStruct.

(** The anonymous request struct of [planHandler]. *)
Record planRequest := {
  Query : string;
  Project : string;
  Instance_ : string;
  Database : string
}.

Definition zeroPlanRequest : planRequest :=
  {| Query := ""; Project := ""; Instance_ := ""; Database := "" |}.

(** Calls that leave the process, in the order they are made. *)
Inductive Event :=
| CallNewClient (database : string)
| CallAnalyzeQuery (sql : string)
| CallClose.

(** [mcp.CallToolResult]: its text contents. *)
Definition CallToolResult : Type := list string.

Section PlanHandler.

Context {Arguments Client QueryPlan Row : Type} `{!PlanRow Row}.

Variable Decode : Arguments → planRequest → planRequest * option error.
Variable NewClient : string → Client + error.
Variable AnalyzeQuery : Client → string → QueryPlan + error.
(** [queryplan.New] on the plan nodes followed by [plantree.ProcessPlan]. *)
Variable ProcessPlan : QueryPlan → list Row + error.
Variable Format : QueryPlan → string.
Variable Render : tablewriter.Table → string.

(** Lines 120-147: what the handler does once [req] is bound.  The result
    pair is Go's (result, error); the list is the trace of outside
    calls, the deferred [Close] last. *)
Definition planHandlerFrom (req : planRequest)
  : (option CallToolResult * option error) * list Event :=
  let path := databasePath (Project req) (Instance_ req) (Database req) in
  match NewClient path with
  | inr err => ((None, Some err), [CallNewClient path])
  | inl client =>
      let result :=
        match AnalyzeQuery client (Query req) with
        | inr err => (None, Some err)
        | inl qp =>
            match ProcessPlan qp with
            | inr err => (None, Some err)
            | inl processed =>
                match printResult Render processed with
                | (_, Some err) => (None, Some err)
                | (result, None) => (Some [Format qp; result], None)
                end
            end
        end in
      (result, [CallNewClient path; CallAnalyzeQuery (Query req); CallClose])
  end.

(** Lines 112-148.  The [err] bound at line 113 is assigned again at line
    120 before anything reads it. *)
Definition planHandler (request : Arguments)
  : (option CallToolResult * option error) * list Event :=
  let '(req, err) := mapToStruct zeroPlanRequest Decode request in
  planHandlerFrom req.

End PlanHandler.

(** The handler of the earlier revision of the file, before the formatter
    was added: the same beginning, and the protocol-buffer text alone as
    the result. *)
Module Earlier.
Section EarlierPlanHandler.

Context {Arguments Client QueryPlan : Type}.

Variable Decode : Arguments → planRequest → planRequest * option error.
Variable NewClient : string → Client + error.
Variable AnalyzeQuery : Client → string → QueryPlan + error.
Variable Format : QueryPlan → string.

Definition planHandlerFrom (req : planRequest)
  : (option CallToolResult * option error) * list Event :=
  let path := databasePath (Project req) (Instance_ req) (Database req) in
  match NewClient path with
  | inr err => ((None, Some err), [CallNewClient path])
  | inl client =>
      let result :=
        match AnalyzeQuery client (Query req) with
        | inr err => (None, Some err)
        | inl qp => (Some [Format qp], None)
        end in
      (result, [CallNewClient path; CallAnalyzeQuery (Query req); CallClose])
  end.

Definition planHandler (request : Arguments)
  : (option CallToolResult * option error) * list Event :=
  let '(req, err) := mapToStruct zeroPlanRequest Decode request in
  planHandlerFrom req.

End EarlierPlanHandler.
End Earlier.

(** ** A concrete row type and a concrete table layout, for examples *)

Module Sample.

Record RowWithPredicates := {
  row_ID : Z;
  row_FormatID : string;
  row_Text : string;
  row_Predicates : list string;
  row_ChildLinks : gmap string (list ResolvedChildLink)
}.

#[global] Instance RowWithPredicates_PlanRow : PlanRow RowWithPredicates :=
  {| ID := row_ID; FormatID := row_FormatID; Text := row_Text;
     Predicates := row_Predicates; ChildLinks := row_ChildLinks |}.

Definition link (variable description : string) : ResolvedChildLink :=
  {| ChildLink := Some {| LinkVariable := variable |};
     Child := Some {| ShortRepresentation :=
                        Some {| Description := description |} |} |}.

Definition mkRow (id : Z) (label text : string) (predicates : list string)
    (links : gmap string (list ResolvedChildLink)) : RowWithPredicates :=
  {| row_ID := id; row_FormatID := label; row_Text := text;
     row_Predicates := predicates; row_ChildLinks := links |}.

(** The join of the end-to-end scenario and its two inputs. *)
Definition joinRow : RowWithPredicates :=
  mkRow 1 "*1" "Join" ["a=b"]
    (<["Left" := [link "" "Scan(L)"]]>
       (<["Right" := [link "r" "Scan(R)"]]> ∅)).

Definition scanL : RowWithPredicates := mkRow 2 "2" "+- Scan(L)" [] ∅.

Definition scanR : RowWithPredicates := mkRow 3 "3" "+- Scan(R)" [] ∅.

Definition plan : list RowWithPredicates := [joinRow; scanL; scanR].

(** The same join with its child links taken away. *)
Definition bareJoinRow : RowWithPredicates := mkRow 1 "*1" "Join" ["a=b"] ∅.

Definition filterRow : RowWithPredicates :=
  mkRow 3 "*3" "Filter" ["p = 1"; "q > 2"] ∅.

Definition wideRow : RowWithPredicates := mkRow 10 "10" "+- Scan" [] ∅.

Definition limitRow : RowWithPredicates :=
  mkRow 2 "*2" "+- Limit" ["c > 0"] ∅.

(** Links under three keys, one of them the empty key. *)
Definition mixedLinks : gmap string (list ResolvedChildLink) :=
  <["Right" := [link "r" "Scan(R)"]]>
    (<["Left" := [link "" "Scan(L)"]]>
       (<["" := [link "" "Scalar"]]> ∅)).

(** A row that carries the three kinds of key. *)
Definition mixedRow : RowWithPredicates :=
  mkRow 7 "*7" "Apply" ["x > 0"] mixedLinks.

Definition idRows : list RowWithPredicates :=
  [mkRow 1 "1" "a" [] ∅; mkRow 2 "2" "b" [] ∅; mkRow 15 "15" "c" [] ∅].

(** Request arguments: a value that is not a string is [None]. *)
Definition Arguments : Type := list (string * option string).

Definition setField (key value : string) (req : planRequest) : planRequest :=
  if decide (key = "query") then
    {| Query := value; Project := Project req; Instance_ := Instance_ req;
       Database := Database req |}
  else if decide (key = "project") then
    {| Query := Query req; Project := value; Instance_ := Instance_ req;
       Database := Database req |}
  else if decide (key = "instance") then
    {| Query := Query req; Project := Project req; Instance_ := value;
       Database := Database req |}
  else if decide (key = "database") then
    {| Query := Query req; Project := Project req; Instance_ := Instance_ req;
       Database := value |}
  else req.

(** A decoder that fills the fields in the order of the arguments and
    stops with an error at the first value that is not a string. *)
Fixpoint Decode (m : Arguments) (result : planRequest)
  : planRequest * option error :=
  match m with
  | [] => (result, None)
  | (key, Some value) :: rest => Decode rest (setField key value result)
  | (key, None) :: _ => (result, Some ("expected a string: " +:+ key))
  end.

Definition NewClient (database : string) : string + error := inl database.

Definition AnalyzeQuery (client sql : string)
  : list RowWithPredicates + error := inl plan.

Definition ProcessPlan (qp : list RowWithPredicates)
  : list RowWithPredicates + error := inl qp.

Definition Format (qp : list RowWithPredicates) : string := "plan_nodes {}".

Definition badRequest : Arguments :=
  [("project", Some "p"); ("instance", Some "i"); ("query", None)].

Import tablewriter.

Definition cell (j : nat) (row : list string) : string := nth j row "".

Definition columnWidth (t : Table) (j : nat) : nat :=
  max_list (String.length <$> (cell j <$> (headers t :: lines t))).

Definition padCell (a : Align) (width : nat) (s : string) : string :=
  match a with
  | ALIGN_RIGHT => Str.Repeat " " (width - String.length s) +:+ s
  | _ => s +:+ Str.Repeat " " (width - String.length s)
  end.

Definition columns (t : Table) : list nat := seq 0 (length (headers t)).

Definition ruler (t : Table) : string :=
  foldr (λ j rest, "+" +:+ Str.Repeat "-" (columnWidth t j + 2) +:+ rest)
    ("+" +:+ Str.nl) (columns t).

Definition textLine (t : Table) (aligns : list Align) (row : list string)
  : string :=
  foldr (λ j rest,
           "| " +:+ padCell (nth j aligns ALIGN_DEFAULT) (columnWidth t j)
                      (cell j row) +:+ " " +:+ rest)
    ("|" +:+ Str.nl) (columns t).

(** A bordered layout: ruler, header, ruler, one line per row, ruler. *)
Definition Render (t : Table) : string :=
  ruler t +:+ textLine t ((λ _, hdrAlign t) <$> headers t) (headers t) +:+ ruler t +:+
  foldr (λ row rest, textLine t (columnsAlign t) row +:+ rest) (ruler t)
    (lines t).

End Sample.

(** ** The schema tool handlers and the first plan handler *)

(** Calls to the database administration service, in the order they are
    made. *)
Inductive AdminEvent :=
| CallNewDatabaseAdminClient
| CallGetDatabaseDdl (database : string)
| CallUpdateDatabaseDdl (database : string) (statements : list string)
| CallWait
| CallMetadata
| CallAdminClose.

#[global] Instance AdminEvent_eq_dec : EqDecision AdminEvent.
Proof. solve_decision. Defined.

#[global] Instance Event_eq_dec : EqDecision Event.
Proof. solve_decision. Defined.

Module databasepb.

(** The response message of [GetDatabaseDdl]; a nil byte slice is the empty
    string. *)
Record GetDatabaseDdlResponse := {
  Statements : list string;
  ProtoDescriptors : string
}.

Definition GetProtoDescriptors (resp : GetDatabaseDdlResponse) : string :=
  ProtoDescriptors resp.

(** The assignment [resp.ProtoDescriptors = nil]. *)
Definition clearProtoDescriptors (resp : GetDatabaseDdlResponse)
  : GetDatabaseDdlResponse :=
  {| Statements := Statements resp; ProtoDescriptors := "" |}.

End databasepb.

Module GetDDL.

(** The anonymous request struct of [getDDLHandler]. *)
Record request := {
  Project : string;
  Instance_ : string;
  Database : string;
  IncludeProtoDescriptors : bool
}.

Definition zeroRequest : request :=
  {| Project := ""; Instance_ := ""; Database := "";
     IncludeProtoDescriptors := false |}.

Section GetDDLHandler.

Context {Arguments AdminClient FileDescriptorSet : Type}.

Variable Decode : Arguments → request → request * option error.
Variable NewDatabaseAdminClient : AdminClient + error.
Variable GetDatabaseDdl :
  AdminClient → string → databasepb.GetDatabaseDdlResponse + error.
(** [proto.Unmarshal] into a fresh descriptor set. *)
Variable Unmarshal : string → FileDescriptorSet + error.
Variable FormatResponse : databasepb.GetDatabaseDdlResponse → string.
Variable FormatDescriptors : FileDescriptorSet → string.

(** Lines 150-192 of [main.go]. *)
Definition getDDLHandler (request : Arguments)
  : (option CallToolResult * option error) * list AdminEvent :=
  let '(req, err) := mapToStruct zeroRequest Decode request in
  match err with
  | Some err => ((None, Some err), [])
  | None =>
      match NewDatabaseAdminClient with
      | inr err => ((None, Some err), [CallNewDatabaseAdminClient])
      | inl client =>
          let path := databasePath (Project req) (Instance_ req) (Database req) in
          let result :=
            match GetDatabaseDdl client path with
            | inr err => (None, Some err)
            | inl resp =>
                match Unmarshal (databasepb.GetProtoDescriptors resp) with
                | inr err => (None, Some err)
                | inl fds =>
                    let contents := [] in
                    let contents :=
                      if IncludeProtoDescriptors req then
                        let contents := contents ++ [FormatResponse resp] in
                        contents ++ [FormatDescriptors fds]
                      else
                        let resp := databasepb.clearProtoDescriptors resp in
                        contents ++ [FormatResponse resp] in
                    (Some contents, None)
                end
            end in
          (result,
           [CallNewDatabaseAdminClient; CallGetDatabaseDdl path; CallAdminClose])
      end
  end.

End GetDDLHandler.

End GetDDL.

(** [getDDLHandler] of the earlier revision: no flag, both texts always. *)
Module EarlierGetDDL.

Record request := {
  Project : string;
  Instance_ : string;
  Database : string
}.

Definition zeroRequest : request :=
  {| Project := ""; Instance_ := ""; Database := "" |}.

Section EarlierGetDDLHandler.

Context {Arguments AdminClient FileDescriptorSet : Type}.

Variable Decode : Arguments → request → request * option error.
Variable NewDatabaseAdminClient : AdminClient + error.
Variable GetDatabaseDdl :
  AdminClient → string → databasepb.GetDatabaseDdlResponse + error.
Variable Unmarshal : string → FileDescriptorSet + error.
Variable FormatResponse : databasepb.GetDatabaseDdlResponse → string.
Variable FormatDescriptors : FileDescriptorSet → string.

Definition getDDLHandler (request : Arguments)
  : (option CallToolResult * option error) * list AdminEvent :=
  let '(req, err) := mapToStruct zeroRequest Decode request in
  match err with
  | Some err => ((None, Some err), [])
  | None =>
      match NewDatabaseAdminClient with
      | inr err => ((None, Some err), [CallNewDatabaseAdminClient])
      | inl client =>
          let path := databasePath (Project req) (Instance_ req) (Database req) in
          let result :=
            match GetDatabaseDdl client path with
            | inr err => (None, Some err)
            | inl resp =>
                match Unmarshal (databasepb.GetProtoDescriptors resp) with
                | inr err => (None, Some err)
                | inl fds =>
                    (Some [FormatResponse resp; FormatDescriptors fds], None)
                end
            end in
          (result,
           [CallNewDatabaseAdminClient; CallGetDatabaseDdl path; CallAdminClose])
      end
  end.

End EarlierGetDDLHandler.

End EarlierGetDDL.

Module UpdateDDL.

(** The anonymous request struct of [updateDDLHandler]. *)
Record request := {
  Project : string;
  Instance_ : string;
  Database : string;
  Statements : list string
}.

Definition zeroRequest : request :=
  {| Project := ""; Instance_ := ""; Database := ""; Statements := [] |}.

Section UpdateDDLHandler.

Context {Arguments AdminClient Operation Metadata : Type}.

Variable Decode : Arguments → request → request * option error.
Variable NewDatabaseAdminClient : AdminClient + error.
Variable UpdateDatabaseDdl :
  AdminClient → string → list string → Operation + error.
(** [resp.Wait(ctx)]: the operation afterwards, and the error. *)
Variable Wait : Operation → Operation * option error.
Variable GetMetadata : Operation → Metadata + error.
Variable FormatMetadata : Metadata → string.

(** Lines 194-229 of [main.go]. *)
Definition updateDDLHandler (request : Arguments)
  : (option CallToolResult * option error) * list AdminEvent :=
  let '(req, err) := mapToStruct zeroRequest Decode request in
  match err with
  | Some err => ((None, Some err), [])
  | None =>
      match NewDatabaseAdminClient with
      | inr err => ((None, Some err), [CallNewDatabaseAdminClient])
      | inl client =>
          let path := databasePath (Project req) (Instance_ req) (Database req) in
          let update := CallUpdateDatabaseDdl path (Statements req) in
          match UpdateDatabaseDdl client path (Statements req) with
          | inr err =>
              ((None, Some err),
               [CallNewDatabaseAdminClient; update; CallAdminClose])
          | inl resp =>
              let '(resp, err) := Wait resp in
              match err with
              | Some err =>
                  ((None, Some err),
                   [CallNewDatabaseAdminClient; update; CallWait; CallAdminClose])
              | None =>
                  let result :=
                    match GetMetadata resp with
                    | inr err => (None, Some err)
                    | inl metadata => (Some [FormatMetadata metadata], None)
                    end in
                  (result,
                   [CallNewDatabaseAdminClient; update; CallWait; CallMetadata;
                    CallAdminClose])
              end
          end
      end
  end.

End UpdateDDLHandler.

End UpdateDDL.

(** [planHandler] of the first revision: the arguments are decoded straight
    into the request and a decoding error ends the call. *)
Module First.
Section FirstPlanHandler.

Context {Arguments Client QueryPlan : Type}.

Variable Decode : Arguments → planRequest → planRequest * option error.
Variable NewClient : string → Client + error.
Variable AnalyzeQuery : Client → string → QueryPlan + error.
Variable Format : QueryPlan → string.

Definition planHandler (request : Arguments)
  : (option CallToolResult * option error) * list Event :=
  let req := zeroPlanRequest in
  let '(req, err) := Decode request req in
  match err with
  | Some err => ((None, Some err), [])
  | None =>
      let path := databasePath (Project req) (Instance_ req) (Database req) in
      match NewClient path with
      | inr err => ((None, Some err), [CallNewClient path])
      | inl client =>
          let result :=
            match AnalyzeQuery client (Query req) with
            | inr err => (None, Some err)
            | inl qp => (Some [Format qp], None)
            end in
          (result,
           [CallNewClient path; CallAnalyzeQuery (Query req); CallClose])
      end
  end.

End FirstPlanHandler.
End First.

(** ** What the outcome of a handler is checked for *)

(** Exactly one of result and error is there. *)
Definition exclusive (result : option CallToolResult * option error) : bool :=
  match result with
  | (Some _, None) | (None, Some _) => true
  | _ => false
  end.

(** The call came back without an error. *)
Definition succeeded {A : Type} (r : A + error) : bool :=
  match r with inl _ => true | inr _ => false end.

Definition decoded {T : Type} (r : T * option error) : bool :=
  match r.2 with None => true | Some _ => false end.

(** A client that was created is closed once, by the last call; without
    a client nothing is closed. *)
Definition closedOnce {E : Type} `{EqDecision E} (close : E) (created : bool)
    (trace : list E) : bool :=
  if created then
    bool_decide (last trace = Some close)
    && bool_decide (length (filter (λ e, e = close) trace) = 1)
  else bool_decide (close ∉ trace).

(** ** Collaborators of the schema handlers, for examples *)

Module SampleAdmin.

Definition setGetField (key value : string) (req : GetDDL.request)
  : GetDDL.request :=
  if decide (key = "project") then
    {| GetDDL.Project := value; GetDDL.Instance_ := GetDDL.Instance_ req;
       GetDDL.Database := GetDDL.Database req;
       GetDDL.IncludeProtoDescriptors := GetDDL.IncludeProtoDescriptors req |}
  else if decide (key = "instance") then
    {| GetDDL.Project := GetDDL.Project req; GetDDL.Instance_ := value;
       GetDDL.Database := GetDDL.Database req;
       GetDDL.IncludeProtoDescriptors := GetDDL.IncludeProtoDescriptors req |}
  else if decide (key = "database") then
    {| GetDDL.Project := GetDDL.Project req;
       GetDDL.Instance_ := GetDDL.Instance_ req; GetDDL.Database := value;
       GetDDL.IncludeProtoDescriptors := GetDDL.IncludeProtoDescriptors req |}
  else if decide (key = "includeprotodescriptors") then
    {| GetDDL.Project := GetDDL.Project req;
       GetDDL.Instance_ := GetDDL.Instance_ req;
       GetDDL.Database := GetDDL.Database req;
       GetDDL.IncludeProtoDescriptors := bool_decide (value = "true") |}
  else req.

Fixpoint DecodeGet (m : Sample.Arguments) (result : GetDDL.request)
  : GetDDL.request * option error :=
  match m with
  | [] => (result, None)
  | (key, Some value) :: rest => DecodeGet rest (setGetField key value result)
  | (key, None) :: _ => (result, Some ("expected a string: " +:+ key))
  end.

Definition setUpdateField (key value : string) (req : UpdateDDL.request)
  : UpdateDDL.request :=
  if decide (key = "project") then
    {| UpdateDDL.Project := value; UpdateDDL.Instance_ := UpdateDDL.Instance_ req;
       UpdateDDL.Database := UpdateDDL.Database req;
       UpdateDDL.Statements := UpdateDDL.Statements req |}
  else if decide (key = "instance") then
    {| UpdateDDL.Project := UpdateDDL.Project req; UpdateDDL.Instance_ := value;
       UpdateDDL.Database := UpdateDDL.Database req;
       UpdateDDL.Statements := UpdateDDL.Statements req |}
  else if decide (key = "database") then
    {| UpdateDDL.Project := UpdateDDL.Project req;
       UpdateDDL.Instance_ := UpdateDDL.Instance_ req;
       UpdateDDL.Database := value;
       UpdateDDL.Statements := UpdateDDL.Statements req |}
  else if decide (key = "statement") then
    {| UpdateDDL.Project := UpdateDDL.Project req;
       UpdateDDL.Instance_ := UpdateDDL.Instance_ req;
       UpdateDDL.Database := UpdateDDL.Database req;
       UpdateDDL.Statements := UpdateDDL.Statements req ++ [value] |}
  else req.

Fixpoint DecodeUpdate (m : Sample.Arguments) (result : UpdateDDL.request)
  : UpdateDDL.request * option error :=
  match m with
  | [] => (result, None)
  | (key, Some value) :: rest =>
      DecodeUpdate rest (setUpdateField key value result)
  | (key, None) :: _ => (result, Some ("expected a string: " +:+ key))
  end.

Definition NewDatabaseAdminClient : string + error := inl "admin".

Definition GetDatabaseDdl (client database : string)
  : databasepb.GetDatabaseDdlResponse + error :=
  inl {| databasepb.Statements := ["CREATE TABLE T (k INT64) PRIMARY KEY (k)"];
         databasepb.ProtoDescriptors := "descriptor bytes" |}.

(** A service whose descriptors cannot be parsed. *)
Definition GetBrokenDdl (client database : string)
  : databasepb.GetDatabaseDdlResponse + error :=
  inl {| databasepb.Statements := []; databasepb.ProtoDescriptors := "?" |}.

Definition Unmarshal (b : string) : string + error :=
  if decide (b = "?") then inr "cannot parse the descriptors" else inl b.

Definition FormatResponse (resp : databasepb.GetDatabaseDdlResponse) : string :=
  "statements: " +:+ Str.Join (databasepb.Statements resp) "; " +:+
  " proto_descriptors: " +:+ databasepb.ProtoDescriptors resp.

Definition FormatDescriptors (fds : string) : string := "file: " +:+ fds.

Definition UpdateDatabaseDdl (client database : string)
    (statements : list string) : list string + error :=
  match statements with
  | [] => inr "no statements"
  | _ => inl statements
  end.

Definition Wait (op : list string) : list string * option error := (op, None).

Definition GetMetadata (op : list string) : list string + error := inl op.

Definition FormatMetadata (metadata : list string) : string :=
  "statements: " +:+ Str.Join metadata "; ".

Definition getRequest : Sample.Arguments :=
  [("project", Some "p"); ("instance", Some "i"); ("database", Some "d")].

Definition updateRequest : Sample.Arguments :=
  [("project", Some "p"); ("instance", Some "i"); ("database", Some "d");
   ("statement", Some "DROP TABLE T")].

Definition planRequestArgs : Sample.Arguments :=
  [("project", Some "p"); ("instance", Some "i"); ("database", Some "d");
   ("query", Some "SELECT 1")].

End SampleAdmin.

(** ** The report as the design document words it

    These definitions follow sections 4.3 to 4.5 of the design document,
    not the code; the properties below compare the two. *)

Module Design.

(** Section 4.3, step 2: the ID right-justified to [maxIDLength] digits,
    followed by a colon. *)
Definition idPrefix (maxIDLength : nat) (id : Z) : string :=
  Fmt.padLeft maxIDLength (Fmt.Sprint id) +:+ ":".

(** Section 4.3, step 3: [maxIDLength + 1] blank characters. *)
Definition blankPrefix (maxIDLength : nat) : string :=
  Str.Repeat " " (maxIDLength + 1).

(** Section 4.3, steps 1 to 4, for one row. *)
Definition predicateLines (maxIDLength : nat) (id : Z)
    (predicates : list string) : list string :=
  match predicates with
  | [] => []
  | first :: more =>
      (idPrefix maxIDLength id +:+ " " +:+ first)
        :: ((λ p, blankPrefix maxIDLength +:+ " " +:+ p) <$> more)
  end.

Definition concatAll (pieces : list string) : string :=
  foldr String.append "" pieces.

(** Section 4.3, step 5: the header line, then each line behind a single
    blank; nothing when there are no lines. *)
Definition predicateSection (lines : list string) : string :=
  match lines with
  | [] => ""
  | _ =>
      "Predicates(identified by ID):" +:+ Str.nl +:+
      concatAll ((λ s, " " +:+ s +:+ Str.nl) <$> lines)
  end.

(** Section 4.4, step 1. *)
Definition linkText (variableName childDescription : string) : string :=
  if decide (variableName = "") then childDescription
  else "$" +:+ variableName +:+ "=" +:+ childDescription.

(** Section 4.4, step 2: the texts of one type, in order, joined. *)
Definition joined (links : list ResolvedChildLink) : string :=
  Str.Join
    ((λ l, linkText (GetVariable (ChildLink l))
             (GetDescription (GetShortRepresentation (Child l)))) <$> links)
    ", ".

(** The entries that produce a line: typed, with a non-empty joined
    text. *)
Definition producing (entries : list (string * list ResolvedChildLink))
  : list (string * list ResolvedChildLink) :=
  filter (λ t, t.1 ≠ "" ∧ joined t.2 ≠ "") entries.

(** Section 4.4, steps 3 and 4, for one row whose entries are given in
    the order they are visited. *)
Definition childLinkLines (maxIDLength : nat) (id : Z)
    (entries : list (string * list ResolvedChildLink)) : list string :=
  match producing entries with
  | [] => []
  | first :: more =>
      (idPrefix maxIDLength id +:+ " " +:+ first.1 +:+ ": " +:+ joined first.2)
        :: ((λ t, blankPrefix maxIDLength +:+ " " +:+ t.1 +:+ ": " +:+
                    joined t.2) <$> more)
  end.

End Design.

(** * Properties *)

(** ** Facts about byte strings *)

Module StrFacts.
Import Str.

Lemma append_cons (c : ascii) (a b : string) :
  String c a +:+ b = String c (a +:+ b).
Proof. reflexivity. Qed.

Lemma append_nil_l (b : string) : EmptyString +:+ b = b.
Proof. reflexivity. Qed.

Lemma append_nil_r (s : string) : s +:+ EmptyString = s.
Proof.
  induction s as [|c s IH]; [done |]. by rewrite append_cons, IH.
Qed.

Lemma append_assoc (a b c : string) : (a +:+ b) +:+ c = a +:+ (b +:+ c).
Proof.
  induction a as [|x a IH]; [done |]. by rewrite !append_cons, IH.
Qed.

Lemma length_append (a b : string) :
  String.length (a +:+ b) = String.length a + String.length b.
Proof.
  induction a as [|x a IH]; [done |]. rewrite append_cons. simpl. by rewrite IH.
Qed.

Lemma append_eq_nil (a b : string) :
  a +:+ b = EmptyString → a = EmptyString ∧ b = EmptyString.
Proof. destruct a; [done | discriminate]. Qed.

Lemma length_Repeat_sp (k : nat) : String.length (Repeat " " k) = k.
Proof.
  induction k as [|k IH]; simpl; [done |].
  rewrite length_append. simpl. by rewrite IH.
Qed.

Lemma endsWithLF_append (a b : string) :
  b ≠ EmptyString → endsWithLF (a +:+ b) = endsWithLF b.
Proof.
  intros Hb. induction a as [|x a IH]; [done |].
  rewrite append_cons. simpl. rewrite IH.
  destruct (a +:+ b) eqn:E; [|done].
  by apply append_eq_nil in E as [_ ?].
Qed.

Lemma endsWithLF_nl (a : string) : endsWithLF (a +:+ nl) = true.
Proof. by rewrite endsWithLF_append. Qed.

Lemma endsWithLF_split (s : string) :
  endsWithLF s = true ↔ ∃ body, s = body +:+ nl.
Proof.
  split.
  - induction s as [|c s IH]; simpl; [done |].
    destruct s as [|d s'].
    + intros Hc. apply Ascii.eqb_eq in Hc as ->. by exists EmptyString.
    + intros Hs. destruct (IH Hs) as [body ->]. by exists (String c body).
  - intros [body ->]. apply endsWithLF_nl.
Qed.

End StrFacts.

(** ** Facts about decimal formatting *)

Example Sprint_15 : Fmt.Sprint 15 = "15".
Proof. reflexivity. Qed.

Example Sprint_0 : Fmt.Sprint 0 = "0".
Proof. reflexivity. Qed.

Example Sprint_neg : Fmt.Sprint (-2147483648) = "-2147483648".
Proof. vm_compute. reflexivity. Qed.

Example Sprintf_pad : Fmt.Sprintf_width_d_colon 2 3 = " 3:".
Proof. reflexivity. Qed.

Module FmtFacts.
Import Fmt.

Lemma formatBits_length (fuel : nat) (u : N) (acc : string) :
  String.length (formatBits fuel u acc) = countDigits fuel u + String.length acc.
Proof.
  revert u acc. induction fuel as [|fuel IH]; intros u acc; simpl; [done |].
  destruct (u <? 10)%N; simpl; [done |]. rewrite IH. simpl. lia.
Qed.

Lemma log2_div10 (u : N) : (10 ≤ u)%N → (N.log2 (u / 10) < N.log2 u)%N.
Proof.
  intros Hu.
  assert (0 < u / 10)%N as Hq by (apply N.div_str_pos; lia).
  assert (2 * (u / 10) ≤ u)%N as Hle.
  { pose proof (N.Div0.mul_div_le u 10). lia. }
  apply N.log2_le_mono in Hle. rewrite N.log2_double in Hle by done. lia.
Qed.

(** Any fuel above the binary logarithm gives the same count. *)
Lemma countDigits_fuel (f g : nat) (u : N) :
  N.to_nat (N.log2 u) < f → N.to_nat (N.log2 u) < g →
  countDigits f u = countDigits g u.
Proof.
  revert g u. induction f as [|f IH]; intros g u Hf Hg; [lia |].
  destruct g as [|g]; [lia |]. simpl.
  destruct (N.ltb_spec u 10) as [|Hu]; [done |].
  f_equal. pose proof (log2_div10 u Hu). apply IH; lia.
Qed.

Lemma countDigits_mono (fuel : nat) (a b : N) :
  (a ≤ b)%N → countDigits fuel a ≤ countDigits fuel b.
Proof.
  revert a b. induction fuel as [|fuel IH]; intros a b Hab; simpl; [done |].
  destruct (N.ltb_spec a 10), (N.ltb_spec b 10); try lia.
  apply le_n_S, IH, N.Div0.div_le_mono. done.
Qed.

Lemma formatUint_length_mono (a b : N) :
  (a ≤ b)%N →
  String.length (formatUint a) ≤ String.length (formatUint b).
Proof.
  intros Hab. unfold formatUint. rewrite !formatBits_length.
  pose proof (N.log2_le_mono a b Hab).
  rewrite (countDigits_fuel (digitFuel a) (digitFuel b) a);
    unfold digitFuel; [| lia..].
  pose proof (countDigits_mono (S (N.to_nat (N.log2 b))) a b Hab).
  cbn [String.length]. lia.
Qed.

(** Among non-negative integers, a larger one is not printed shorter. *)
Lemma Sprint_length_mono (a b : Z) :
  (0 ≤ a)%Z → (a ≤ b)%Z →
  String.length (Sprint a) ≤ String.length (Sprint b).
Proof.
  intros Ha Hab. unfold Sprint.
  destruct (Z.ltb_spec a 0), (Z.ltb_spec b 0); try lia.
  apply formatUint_length_mono. lia.
Qed.

Lemma countDigits_bounds (fuel : nat) (u : N) :
  N.to_nat (N.log2 u) < fuel → (0 < u)%N →
  (10 ^ N.of_nat (countDigits fuel u - 1) ≤ u < 10 ^ N.of_nat (countDigits fuel u))%N.
Proof.
  revert u. induction fuel as [|fuel IH]; intros u Hf Hu; [lia |]. simpl.
  destruct (N.ltb_spec u 10) as [|Hten]; [simpl; lia |].
  pose proof (log2_div10 u Hten).
  assert (0 < u / 10)%N as Hq by (apply N.div_str_pos; lia).
  destruct (IH (u / 10)%N ltac:(lia) Hq) as [Hlo Hhi].
  assert (0 < countDigits fuel (u / 10)) as Hpos.
  { destruct fuel; [lia |]. simpl. destruct (u / 10 <? 10)%N; lia. }
  replace (S (countDigits fuel (u / 10)) - 1)
    with (S (countDigits fuel (u / 10) - 1)) by lia.
  rewrite !Nat2N.inj_succ, !N.pow_succ_r'.
  pose proof (N.Div0.mul_div_le u 10).
  pose proof (N.mul_succ_div_gt u 10 ltac:(lia)). lia.
Qed.

(** The printed length of a positive integer is its number of decimal
    digits. *)
Lemma Sprint_length_digits (n : Z) :
  (0 < n)%Z →
  (10 ^ Z.of_nat (String.length (Sprint n) - 1) ≤ n
     < 10 ^ Z.of_nat (String.length (Sprint n)))%Z.
Proof.
  intros Hn. unfold Sprint. destruct (Z.ltb_spec n 0); [lia |].
  unfold formatUint. rewrite formatBits_length.
  cbn [String.length]. rewrite Nat.add_0_r.
  destruct (countDigits_bounds (digitFuel (Z.to_N n)) (Z.to_N n)) as [Hlo Hhi];
    [unfold digitFuel; lia | lia |].
  apply N2Z.inj_le in Hlo. apply N2Z.inj_lt in Hhi.
  rewrite N2Z.inj_pow, Z2N.id, nat_N_Z in Hlo, Hhi by lia. done.
Qed.

End FmtFacts.

(** ** Facts about sorted map entries *)

Section Entries.

Context {V : Type}.
Implicit Types (m : gmap string V) (l : list (string * V)).

#[local] Instance entryLe_total : Total (@entryLe V).
Proof. intros a b. unfold entryLe. apply (total String.le). Qed.

#[local] Instance entryLe_trans : Transitive (@entryLe V).
Proof. intros a b c. unfold entryLe. apply (transitivity (R := String.le)). Qed.

Lemma EntriesSortedByKey_perm m : EntriesSortedByKey m ≡ₚ map_to_list m.
Proof. apply merge_sort_Permutation. Qed.

Lemma EntriesSortedByKey_sorted m :
  StronglySorted entryLe (EntriesSortedByKey m).
Proof. apply StronglySorted_merge_sort; apply _. Qed.

Lemma EntriesSortedByKey_elem m k v :
  (k, v) ∈ EntriesSortedByKey m ↔ m !! k = Some v.
Proof. by rewrite EntriesSortedByKey_perm, elem_of_map_to_list. Qed.

Lemma EntriesSortedByKey_keys_NoDup m : NoDup (EntriesSortedByKey m).*1.
Proof. rewrite EntriesSortedByKey_perm. apply NoDup_fst_map_to_list. Qed.

(** A list of the map's entries in key order is the one the sort
    yields, whatever order it was enumerated in. *)
Lemma EntriesSortedByKey_unique m l :
  l ≡ₚ map_to_list m → StronglySorted entryLe l → l = EntriesSortedByKey m.
Proof.
  intros Hp Hs.
  apply (StronglySorted_unique_strong entryLe);
    [| done | apply EntriesSortedByKey_sorted
     | by rewrite Hp, EntriesSortedByKey_perm].
  intros [k1 v1] [k2 v2] H1 H2 Hle1 Hle2.
  rewrite Hp in H1. apply elem_of_map_to_list in H1.
  apply EntriesSortedByKey_elem in H2.
  assert (k1 = k2) as -> by (by apply (anti_symm String.le)).
  congruence.
Qed.

Lemma empty_key_le (k : string) : String.le "" k.
Proof. by destruct k. Qed.

(** The empty key sorts first. *)
Lemma EntriesSortedByKey_empty_key m v :
  m !! "" = Some v →
  EntriesSortedByKey m = ("", v) :: EntriesSortedByKey (delete "" m).
Proof.
  intros Hm. symmetry. apply EntriesSortedByKey_unique.
  - rewrite EntriesSortedByKey_perm.
    rewrite <- (insert_delete_id m "" v) at 2 by done.
    rewrite map_to_list_insert by apply lookup_delete_eq. done.
  - constructor; [apply EntriesSortedByKey_sorted |].
    apply Forall_forall. intros [k w] _. apply empty_key_le.
Qed.

Lemma EntriesSortedByKey_keys_sorted m :
  StronglySorted (strict String.le) (EntriesSortedByKey m).*1.
Proof.
  pose proof (EntriesSortedByKey_keys_NoDup m) as Hnd.
  pose proof (EntriesSortedByKey_sorted m) as Hs.
  induction Hs as [|a l Hs IH Hall]; simpl; [constructor |].
  apply NoDup_cons in Hnd as [Hnotin Hnd].
  constructor; [by apply IH |].
  apply Forall_fmap, Forall_forall. intros b Hb. simpl. split.
  - rewrite Forall_forall in Hall. by apply Hall.
  - intros Hba. apply Hnotin.
    assert (a.1 = b.1) as ->.
    { apply (anti_symm String.le); [| done].
      rewrite Forall_forall in Hall. by apply Hall. }
    by apply list_elem_of_fmap_2.
Qed.

End Entries.

(** ** Facts about the loops of [printResult] *)

Section LoopFacts.

Context {Row : Type} `{!PlanRow Row}.
Variable Render : tablewriter.Table → string.

Lemma buildTable_eq (rows : list Row) :
  buildTable rows =
    {| tablewriter.autoFmt := false;
       tablewriter.autoWrap := false;
       tablewriter.hdrAlign := tablewriter.ALIGN_LEFT;
       tablewriter.columnsAlign :=
         [tablewriter.ALIGN_RIGHT; tablewriter.ALIGN_LEFT];
       tablewriter.headers := ["ID"; "Operator"];
       tablewriter.lines := (λ row, [FormatID row; Text row]) <$> rows |}.
Proof.
  unfold buildTable.
  set (start :=
         tablewriter.SetAutoWrapText false
           (tablewriter.SetColumnAlignment _ _)).
  assert (∀ t,
    fold_left (λ table row, tablewriter.Append [FormatID row; Text row] table)
      rows t =
    {| tablewriter.autoFmt := tablewriter.autoFmt t;
       tablewriter.autoWrap := tablewriter.autoWrap t;
       tablewriter.hdrAlign := tablewriter.hdrAlign t;
       tablewriter.columnsAlign := tablewriter.columnsAlign t;
       tablewriter.headers := tablewriter.headers t;
       tablewriter.lines :=
         tablewriter.lines t ++ ((λ row, [FormatID row; Text row]) <$> rows) |})
    as Hfold.
  { induction rows as [|row rows IH]; intros t; simpl.
    - rewrite app_nil_r. by destruct t.
    - rewrite IH. simpl. by rewrite <- app_assoc. }
  rewrite Hfold. reflexivity.
Qed.

Lemma maxIDLength_fold (rows : list Row) (start : nat) :
  fold_left
    (λ maxIDLength row,
       let length := String.length (Fmt.Sprint (ID row)) in
       if decide (maxIDLength < length) then length else maxIDLength)
    rows start
  = Nat.max start
      (max_list ((λ row, String.length (Fmt.Sprint (ID row))) <$> rows)).
Proof.
  revert start. induction rows as [|row rows IH]; intros start.
  - simpl. by rewrite Nat.max_0_r.
  - cbn [fold_left]. rewrite IH, fmap_cons. cbn [max_list].
    cbn zeta. unfold id. case_decide; lia.
Qed.

Lemma maxIDLength_max_list (rows : list Row) :
  maxIDLength rows =
    max_list ((λ row, String.length (Fmt.Sprint (ID row))) <$> rows).
Proof. unfold maxIDLength. by rewrite maxIDLength_fold. Qed.

Lemma predicatePass_later (w : nat) (id : Z) (i : nat) (rest : list string)
    (prefix : string) (predicates : list string) :
  (predicatePass w id (S i) rest prefix predicates).2 =
    predicates ++ ((λ p, Design.blankPrefix w +:+ " " +:+ p) <$> rest).
Proof.
  revert i prefix predicates.
  induction rest as [|p rest IH]; intros i prefix predicates; simpl.
  - by rewrite app_nil_r.
  - rewrite IH, <- app_assoc. reflexivity.
Qed.

Lemma predicatePass_lines (w : nat) (id : Z) (rest : list string)
    (prefix : string) (predicates : list string) :
  (predicatePass w id 0 rest prefix predicates).2 =
    predicates ++ Design.predicateLines w id rest.
Proof.
  destruct rest as [|p rest]; simpl.
  - by rewrite app_nil_r.
  - rewrite predicatePass_later, <- app_assoc. reflexivity.
Qed.

Lemma describeLink_linkText (item : ResolvedChildLink) :
  describeLink item =
    Design.linkText (GetVariable (ChildLink item))
      (GetDescription (GetShortRepresentation (Child item))).
Proof.
  unfold describeLink, Design.linkText.
  repeat case_decide; done.
Qed.

Lemma Join_describeLink (links : list ResolvedChildLink) :
  Str.Join (describeLink <$> links) ", " = Design.joined links.
Proof.
  unfold Design.joined. f_equal. apply list_fmap_ext.
  intros _ item _. apply describeLink_linkText.
Qed.

Lemma childLinkStep_cases (w : nat) (id : Z) (prefix : string) (i : nat)
    (parameters : list string) (t : string * list ResolvedChildLink) :
  childLinkStep w id (prefix, i, parameters) t =
    if decide (t.1 = "") then (prefix, i, parameters)
    else
      let shown :=
        if decide (i = 0) then Design.idPrefix w id
        else Design.blankPrefix w in
      if decide (Design.joined t.2 = "") then (shown, i, parameters)
      else (shown, S i,
            parameters ++
              [shown +:+ " " +:+ t.1 +:+ ": " +:+ Design.joined t.2]).
Proof.
  unfold childLinkStep. rewrite Join_describeLink.
  repeat case_decide; try done; by rewrite StrFacts.append_assoc.
Qed.

Lemma childLinkFold_later (w : nat) (id : Z)
    (entries : list (string * list ResolvedChildLink))
    (prefix : string) (i : nat) (parameters : list string) :
  (fold_left (childLinkStep w id) entries (prefix, S i, parameters)).2 =
    parameters ++
      ((λ t, Design.blankPrefix w +:+ " " +:+ t.1 +:+ ": " +:+
               Design.joined t.2) <$> Design.producing entries).
Proof.
  revert prefix i parameters.
  induction entries as [|t entries IH]; intros prefix i parameters.
  - simpl. by rewrite app_nil_r.
  - cbn [fold_left]. rewrite childLinkStep_cases.
    unfold Design.producing in *. rewrite filter_cons.
    destruct (decide (t.1 = "")) as [Ht|Ht].
    { rewrite decide_False by (intros [? _]; done). apply IH. }
    cbn zeta. rewrite (decide_False (P := S i = 0)) by done.
    destruct (decide (Design.joined t.2 = "")) as [Hj|Hj].
    { rewrite decide_False by (intros [_ ?]; done). apply IH. }
    rewrite decide_True by done.
    rewrite IH, <- app_assoc. reflexivity.
Qed.

Lemma childLinkFold_lines (w : nat) (id : Z)
    (entries : list (string * list ResolvedChildLink))
    (prefix : string) (parameters : list string) :
  (fold_left (childLinkStep w id) entries (prefix, 0, parameters)).2 =
    parameters ++ Design.childLinkLines w id entries.
Proof.
  revert prefix parameters.
  induction entries as [|t entries IH]; intros prefix parameters.
  - simpl. by rewrite app_nil_r.
  - cbn [fold_left]. rewrite childLinkStep_cases.
    unfold Design.childLinkLines, Design.producing in *. rewrite filter_cons.
    destruct (decide (t.1 = "")) as [Ht|Ht].
    { rewrite decide_False by (intros [? _]; done). apply IH. }
    cbn zeta. rewrite (decide_True (P := 0 = 0)) by done.
    destruct (decide (Design.joined t.2 = "")) as [Hj|Hj].
    { rewrite decide_False by (intros [_ ?]; done). apply IH. }
    rewrite decide_True by done.
    rewrite childLinkFold_later, <- app_assoc. reflexivity.
Qed.

Lemma rowStep_lines (w : nat) (acc : list string * list string) (row : Row) :
  rowStep w acc row =
    (acc.1 ++ Design.predicateLines w (ID row) (Predicates row),
     acc.2 ++ Design.childLinkLines w (ID row)
                (EntriesSortedByKey (ChildLinks row))).
Proof.
  destruct acc as [predicates parameters]. unfold rowStep.
  pose proof (predicatePass_lines w (ID row) (Predicates row) "" predicates)
    as Hp.
  destruct (predicatePass w (ID row) 0 (Predicates row) "" predicates)
    as [prefix predicates'].
  pose proof (childLinkFold_lines w (ID row)
                (EntriesSortedByKey (ChildLinks row)) prefix parameters) as Hq.
  destruct (fold_left _ _ _) as [[prefix' i] parameters'].
  simpl in *. by subst.
Qed.

Lemma rowStep_fold (w : nat) (rows : list Row)
    (acc : list string * list string) :
  fold_left (rowStep w) rows acc =
    (acc.1 ++ (rows ≫= λ row,
                 Design.predicateLines w (ID row) (Predicates row)),
     acc.2 ++ (rows ≫= λ row,
                 Design.childLinkLines w (ID row)
                   (EntriesSortedByKey (ChildLinks row)))).
Proof.
  revert acc. induction rows as [|row rows IH]; intros acc; simpl.
  - rewrite !app_nil_r. by destruct acc.
  - rewrite IH, rowStep_lines. simpl. by rewrite <- !app_assoc.
Qed.

Lemma collect_lines (rows : list Row) :
  collect rows =
    (rows ≫= (λ row,
                Design.predicateLines (maxIDLength rows) (ID row)
                  (Predicates row)),
     rows ≫= (λ row,
                Design.childLinkLines (maxIDLength rows) (ID row)
                  (EntriesSortedByKey (ChildLinks row)))).
Proof. unfold collect. by rewrite rowStep_fold. Qed.

Lemma writePredicates_fold (predicates : list string) (b : string) :
  fold_left (λ b s, b +:+ (" " +:+ s +:+ Str.nl)) predicates b =
    b +:+ Design.concatAll ((λ s, " " +:+ s +:+ Str.nl) <$> predicates).
Proof.
  revert b. induction predicates as [|s predicates IH]; intros b; simpl.
  - by rewrite StrFacts.append_nil_r.
  - rewrite IH. by rewrite StrFacts.append_assoc.
Qed.

Lemma writePredicates_section (predicates : list string) (b : string) :
  writePredicates predicates b = b +:+ Design.predicateSection predicates.
Proof.
  unfold writePredicates, Design.predicateSection.
  destruct predicates as [|s predicates].
  - simpl. by rewrite StrFacts.append_nil_r.
  - rewrite decide_True by (simpl; lia).
    rewrite writePredicates_fold. by rewrite !StrFacts.append_assoc.
Qed.

Lemma predicateLines_end_with_LF (lines : list string) :
  lines ≠ [] →
  Str.endsWithLF
    (Design.concatAll ((λ s, " " +:+ s +:+ Str.nl) <$> lines)) = true.
Proof.
  induction lines as [|s rest IH]; [done |]. intros _.
  rewrite fmap_cons. unfold Design.concatAll in *. cbn [foldr].
  destruct rest as [|s' rest'].
  - rewrite fmap_nil. cbn [foldr].
    rewrite StrFacts.append_nil_r, <- StrFacts.append_assoc.
    apply StrFacts.endsWithLF_nl.
  - specialize (IH ltac:(done)).
    rewrite StrFacts.endsWithLF_append; [done |].
    intros Hnil. by rewrite Hnil in IH.
Qed.

(** The report is the rendered table, if there are rows, followed by the
    predicate section. *)
Lemma printResult_eq (rows : list Row) :
  printResult Render rows =
    ((if decide (rows = []) then "" else Render (buildTable rows)) +:+
     Design.predicateSection (collect rows).1, None).
Proof.
  unfold printResult, renderTable.
  destruct (collect rows) as [predicates parameters].
  rewrite writePredicates_section. cbn [fst]. f_equal. f_equal.
  destruct rows as [|row rows]; repeat case_decide;
    simpl in *; done || lia.
Qed.

End LoopFacts.

(** ** The report depends on the rows through [shown] only *)

Section Shown.

Context {Row : Type} `{!PlanRow Row}.
Variable Render : tablewriter.Table → string.

Lemma shown_Forall2 (rows rows' : list Row) :
  shown <$> rows = shown <$> rows' → Forall2 sameShown rows rows'.
Proof.
  intros Heq. apply list_eq_Forall2 in Heq.
  rewrite Forall2_fmap in Heq. exact Heq.
Qed.

Lemma fmap_sameShown {B : Type} (f : Row → B) (rows rows' : list Row) :
  (∀ a b, sameShown a b → f a = f b) →
  Forall2 sameShown rows rows' → f <$> rows = f <$> rows'.
Proof.
  intros Hf Hall. induction Hall as [|a b rows rows' Hab _ IH]; [done |].
  rewrite !fmap_cons, IH. f_equal. by apply Hf.
Qed.

Lemma bind_sameShown {B : Type} (f : Row → list B) (rows rows' : list Row) :
  (∀ a b, sameShown a b → f a = f b) →
  Forall2 sameShown rows rows' → rows ≫= f = rows' ≫= f.
Proof.
  intros Hf Hall. induction Hall as [|a b rows rows' Hab _ IH]; [done |].
  rewrite !bind_cons, IH. f_equal. by apply Hf.
Qed.

Lemma printResult_sameShown (rows rows' : list Row) :
  shown <$> rows = shown <$> rows' →
  printResult Render rows = printResult Render rows'.
Proof.
  intros Heq. pose proof (shown_Forall2 _ _ Heq) as Hall.
  assert (maxIDLength rows = maxIDLength rows') as Hw.
  { rewrite !maxIDLength_max_list. f_equal. apply fmap_sameShown; [| done].
    intros a b Hab. injection Hab; intros; congruence. }
  assert (buildTable rows = buildTable rows') as Ht.
  { rewrite !buildTable_eq. f_equal. apply fmap_sameShown; [| done].
    intros a b Hab. injection Hab; intros; congruence. }
  rewrite !printResult_eq, !collect_lines, Hw, Ht. cbn [fst].
  f_equal. f_equal.
  - destruct Hall; repeat case_decide; done.
  - f_equal. apply bind_sameShown; [| done].
    intros a b Hab. injection Hab; intros; congruence.
Qed.

End Shown.

(** * The statements of the design document *)

Section Report.

Context {Row : Type} `{!PlanRow Row}.
Variable Render : tablewriter.Table → string.

(** C1. The report is the output of the table, followed exactly when the
    slice of predicate lines is not empty by the header line and every
    predicate line behind one blank.  The slice of child-link lines has no
    part in it: two row sequences that differ in their child links only
    give the same report.  With rows but no predicate line the report is
    the rendered table. *)
Theorem printResult_report (rows : list Row) :
  let table := if decide (rows = []) then "" else Render (buildTable rows) in
  let predicates := (collect rows).1 in
  (printResult Render rows).1 =
    table +:+
    (if decide (predicates = []) then ""
     else "Predicates(identified by ID):" +:+ Str.nl +:+
          Design.concatAll ((λ s, " " +:+ s +:+ Str.nl) <$> predicates))
  ∧ (∀ rows' : list Row,
       shown <$> rows' = shown <$> rows →
       printResult Render rows' = printResult Render rows)
  ∧ (rows ≠ [] → predicates = [] →
     (printResult Render rows).1 = Render (buildTable rows))
  ∧ (rows ≠ [] → Forall (λ row, Predicates row = []) rows →
     (printResult Render rows).1 = Render (buildTable rows)).
Proof.
  intros table predicates. subst table predicates.
  split; [| split; [| split]].
  - rewrite printResult_eq. cbn [fst]. unfold Design.predicateSection.
    destruct (collect rows).1; by repeat case_decide.
  - intros rows' Heq. by apply printResult_sameShown.
  - intros Hrows Hnone. rewrite printResult_eq, Hnone. cbn [fst].
    rewrite decide_False by done. apply StrFacts.append_nil_r.
  - intros Hrows Hnone. rewrite printResult_eq. cbn [fst].
    rewrite decide_False by done.
    rewrite collect_lines. cbn [fst].
    assert (∀ w, rows ≫= (λ row,
               Design.predicateLines w (ID row) (Predicates row)) = [])
      as ->; [| apply StrFacts.append_nil_r].
    intros w. induction Hnone as [|row rest Hrow _ IH]; [done |].
    rewrite bind_cons, Hrow. destruct rest; [done |]. by apply IH.
Qed.

(** C3. [maxIDLength] is the greatest printed length of an ID, 0 for no
    rows; when no ID is negative and there is a row, it is the printed
    length of the greatest ID, which is its number of decimal digits: the
    greatest ID, if positive, lies between 10 to the [maxIDLength - 1] and
    10 to the [maxIDLength].  IDs 1, 2 and 15 give 2. *)
Theorem maxIDLength_largest (rows : list Row) :
  let largest := foldr Z.max 0%Z (ID <$> rows) in
  maxIDLength rows =
    max_list ((λ row, String.length (Fmt.Sprint (ID row))) <$> rows)
  ∧ (rows = [] → maxIDLength rows = 0)
  ∧ (rows ≠ [] → Forall (λ row, (0 ≤ ID row)%Z) rows →
     maxIDLength rows = String.length (Fmt.Sprint largest))
  ∧ (rows ≠ [] → Forall (λ row, (0 ≤ ID row)%Z) rows → (0 < largest)%Z →
     (10 ^ Z.of_nat (maxIDLength rows - 1) ≤ largest
        < 10 ^ Z.of_nat (maxIDLength rows))%Z)
  ∧ (∀ a b c : Row, ID a = 1%Z → ID b = 2%Z → ID c = 15%Z →
     maxIDLength [a; b; c] = 2).
Proof.
  intros largest. subst largest.
  assert (rows ≠ [] → Forall (λ row, (0 ≤ ID row)%Z) rows →
          maxIDLength rows =
            String.length (Fmt.Sprint (foldr Z.max 0%Z (ID <$> rows))))
    as Hlargest.
  { intros Hrows Hpos. rewrite maxIDLength_max_list.
    induction Hpos as [|row rest Hrow Hrest IH]; [done |].
    rewrite !fmap_cons. cbn [foldr].
    assert (∀ x l, max_list (x :: l) = Nat.max x (max_list l)) as ->
      by reflexivity.
    destruct (decide (rest = [])) as [-> | Hne].
    - simpl. rewrite Z.max_l by done. lia.
    - rewrite IH by done.
      set (top := foldr Z.max 0%Z (ID <$> rest)).
      assert (0 ≤ top)%Z as Htop.
      { subst top. clear. induction (ID <$> rest); simpl; lia. }
      destruct (Z.le_ge_cases (ID row) top) as [Hle|Hge].
      + rewrite Z.max_r by done.
        pose proof (FmtFacts.Sprint_length_mono _ _ Hrow Hle). lia.
      + rewrite Z.max_l by done.
        pose proof (FmtFacts.Sprint_length_mono _ _ Htop Hge). lia. }
  split; [apply maxIDLength_max_list |]. split; [by intros -> |].
  split; [exact Hlargest |]. split.
  - intros Hrows Hpos Htop. rewrite (Hlargest Hrows Hpos).
    by apply FmtFacts.Sprint_length_digits.
  - intros a b c Ha Hb Hc. rewrite maxIDLength_max_list. simpl.
    by rewrite Ha, Hb, Hc.
Qed.

(** C4. With no rows the table writes nothing and the report is the empty
    string. *)
Theorem printResult_nil :
  renderTable Render [] "" = "" ∧ printResult Render [] = ("", None).
Proof. split; reflexivity. Qed.

(** C5. The lines of the two passes are, row after row, the lines each row
    yields by itself: in each pass the first line of a row carries the ID
    prefix and the later ones the blank prefix.  A row's predicate lines
    are a function of its ID and its predicates alone, its child-link
    lines of its ID and its links alone.  Two rows in sequence with one
    predicate each give two lines, each with the ID of its row. *)
Theorem prefix_restarts_per_row (rows : list Row) :
  (collect rows).1 =
    rows ≫= (λ row,
      Design.predicateLines (maxIDLength rows) (ID row) (Predicates row))
  ∧ (collect rows).2 =
    rows ≫= (λ row,
      Design.childLinkLines (maxIDLength rows) (ID row)
        (EntriesSortedByKey (ChildLinks row)))
  ∧ (∀ (w : nat) (acc : list string * list string) (a b : Row) (p q : string),
       Predicates a = [p] → Predicates b = [q] →
       (fold_left (rowStep w) [a; b] acc).1 =
         acc.1 ++ [Design.idPrefix w (ID a) +:+ " " +:+ p;
                   Design.idPrefix w (ID b) +:+ " " +:+ q]).
Proof.
  rewrite collect_lines. repeat split.
  intros w acc a b p q Ha Hb. rewrite rowStep_fold. cbn [fst].
  f_equal. simpl. by rewrite Ha, Hb.
Qed.

(** C8. [printResult] is total and the error it returns is nil. *)
Theorem printResult_no_error (rows : list Row) :
  (printResult Render rows).2 = None
  ∧ ∃ report : string, printResult Render rows = (report, None).
Proof. rewrite printResult_eq. eauto. Qed.

(** Provided the text the table writer renders for the rows is empty or
    ends in a line feed, the report is empty or ends in a line feed.  What
    the table writer renders is decided outside this repository. *)
Theorem printResult_ends_with_newline (rows : list Row) :
  Render (buildTable rows) = "" ∨
    Str.endsWithLF (Render (buildTable rows)) = true →
  (printResult Render rows).1 = "" ∨
    ∃ body : string, (printResult Render rows).1 = body +:+ Str.nl.
Proof.
  intros Htable. rewrite printResult_eq. cbn [fst].
  unfold Design.predicateSection.
  destruct (collect rows).1 as [|s predicates] eqn:Hlines.
  - rewrite StrFacts.append_nil_r. case_decide; [by left |].
    destruct Htable as [-> | Hlf]; [by left | right].
    by apply StrFacts.endsWithLF_split.
  - right. apply StrFacts.endsWithLF_split.
    pose proof (predicateLines_end_with_LF (s :: predicates) ltac:(done))
      as Hend.
    assert (∀ x : string, Str.endsWithLF x = true → x ≠ "") as Hne
      by (by intros x Hx ->).
    rewrite StrFacts.endsWithLF_append by done.
    rewrite StrFacts.endsWithLF_append by done.
    rewrite StrFacts.endsWithLF_append; [done | by apply Hne].
Qed.

End Report.

(** ** The two passes over a row *)

(** C2. With width 2, the row of ID 3 with predicates [p = 1] and [q > 2]
    yields the lines [ 3: p = 1] and [    q > 2], and the report of that
    row next to a row of ID 10 shows them.  In general the first line of a
    row is the ID padded on the left to the width, a colon, a blank and
    the predicate; each later one is width + 1 blanks, a blank and the
    predicate. *)
Theorem predicate_lines_example :
  (predicatePass 2 3 0 ["p = 1"; "q > 2"] "" []).2 =
    [" 3: p = 1"; "    q > 2"]
  ∧ maxIDLength [Sample.filterRow; Sample.wideRow] = 2
  ∧ (collect [Sample.filterRow; Sample.wideRow]).1 =
      [" 3: p = 1"; "    q > 2"]
  ∧ (printResult Sample.Render [Sample.filterRow; Sample.wideRow]).1 =
      Sample.Render (buildTable [Sample.filterRow; Sample.wideRow]) +:+
      "Predicates(identified by ID):" +:+ Str.nl +:+
      "  3: p = 1" +:+ Str.nl +:+
      "     q > 2" +:+ Str.nl
  ∧ (∀ (w : nat) (id : Z) (first : string) (more : list string)
       (prefix : string) (predicates : list string),
       (predicatePass w id 0 (first :: more) prefix predicates).2 =
         predicates ++
           ((Fmt.padLeft w (Fmt.Sprint id) +:+ ":") +:+ " " +:+ first)
             :: ((λ p, Str.Repeat " " (w + 1) +:+ " " +:+ p) <$> more))
  ∧ (∀ (w : nat) (id : Z),
       Fmt.padLeft w (Fmt.Sprint id) =
         Str.Repeat " " (w - String.length (Fmt.Sprint id)) +:+ Fmt.Sprint id
       ∧ String.length (Fmt.padLeft w (Fmt.Sprint id)) =
           Nat.max w (String.length (Fmt.Sprint id))).
Proof.
  split; [reflexivity |]. split; [reflexivity |].
  split; [by vm_compute |]. split; [by vm_compute |]. split.
  - intros w id first more prefix predicates.
    by rewrite predicatePass_lines.
  - intros w id. split; [reflexivity |]. unfold Fmt.padLeft.
    rewrite StrFacts.length_append, StrFacts.length_Repeat_sp. lia.
Qed.

(** C6. A link is rendered as a dollar sign, the variable name, an equals
    sign and the child description when it has a variable name, and as the
    child description alone when it has none.  The renderings of one type
    are joined in order, a comma and a blank between neighbours.  An entry
    whose joined text is empty adds no line and does not count as a line;
    a typed entry whose joined text is not empty adds one line. *)
Theorem describeLink_rendering :
  (∀ item : ResolvedChildLink,
     describeLink item =
       let variableName := GetVariable (ChildLink item) in
       let childDescription :=
         GetDescription (GetShortRepresentation (Child item)) in
       if decide (variableName = "") then childDescription
       else "$" +:+ variableName +:+ "=" +:+ childDescription)
  ∧ describeLink (Sample.link "x" "Scan(Table: T)") = "$x=Scan(Table: T)"
  ∧ describeLink (Sample.link "" "Scan(Table: T)") = "Scan(Table: T)"
  ∧ (∀ (sep e e' : string) (rest : list string),
       Str.Join [] sep = "" ∧ Str.Join [e] sep = e
       ∧ Str.Join (e :: e' :: rest) sep = e +:+ sep +:+ Str.Join (e' :: rest) sep)
  ∧ (∀ (w : nat) (id : Z) (prefix : string) (i : nat)
       (parameters : list string) (typ : string)
       (links : list ResolvedChildLink),
       Str.Join (describeLink <$> links) ", " = "" →
       ∃ prefix' : string,
         childLinkStep w id (prefix, i, parameters) (typ, links) =
           (prefix', i, parameters))
  ∧ (∀ (w : nat) (id : Z) (prefix : string) (i : nat)
       (parameters : list string) (typ : string)
       (links : list ResolvedChildLink),
       typ ≠ "" → Str.Join (describeLink <$> links) ", " ≠ "" →
       ∃ prefix' : string,
         childLinkStep w id (prefix, i, parameters) (typ, links) =
           (prefix', S i,
            parameters ++
              [prefix' +:+ " " +:+ typ +:+ ": " +:+
               Str.Join (describeLink <$> links) ", "])).
Proof.
  split; [apply describeLink_linkText |].
  split; [reflexivity |]. split; [reflexivity |].
  split; [by intros |]. split.
  - intros w id prefix i parameters typ links Hjoin.
    rewrite childLinkStep_cases. rewrite Join_describeLink in Hjoin.
    cbn [fst snd]. case_decide; [by eexists |]. cbn zeta.
    rewrite decide_True by done. by eexists.
  - intros w id prefix i parameters typ links Htyp Hjoin.
    rewrite childLinkStep_cases. rewrite Join_describeLink in Hjoin |- *.
    cbn [fst snd]. rewrite decide_False by done. cbn zeta.
    rewrite decide_False by done. by eexists.
Qed.

(** C7. The child-link pass of a row, which is the second loop of
    [rowStep], goes through the entries of the row's map in strictly
    ascending byte order of their keys, whatever order the map enumerates
    them in: the lines [rowStep] adds are those the loop body yields on any
    enumeration of the entries that is in key order, and equally on any
    such enumeration of the map without the empty key, on which the loop
    body changes nothing.  The same holds of the lines [collect] gathers
    over all rows. *)
Theorem childLinks_sorted_keys {Row : Type} `{!PlanRow Row} (row : Row)
    (w : nat) (acc : list string * list string) :
  let m := ChildLinks row in
  let visited := EntriesSortedByKey m in
  StronglySorted (strict String.le) visited.*1
  ∧ (∀ k : string, k ∈ visited.*1 ↔ is_Some (m !! k))
  ∧ (∀ l : list (string * list ResolvedChildLink),
       l ≡ₚ map_to_list m → StronglySorted entryLe l → visited = l)
  ∧ (∀ (st : string * nat * list string) (links : list ResolvedChildLink),
       childLinkStep w (ID row) st ("", links) = st)
  ∧ (∀ st : string * nat * list string,
       fold_left (childLinkStep w (ID row)) visited st =
       fold_left (childLinkStep w (ID row))
         (EntriesSortedByKey (delete "" m)) st)
  ∧ (∀ (prefix : string) (l : list (string * list ResolvedChildLink)),
       l ≡ₚ map_to_list m → StronglySorted entryLe l →
       (rowStep w acc row).2 =
         (fold_left (childLinkStep w (ID row)) l (prefix, 0, acc.2)).2)
  ∧ (∀ (prefix : string) (l : list (string * list ResolvedChildLink)),
       l ≡ₚ map_to_list (delete "" m) → StronglySorted entryLe l →
       (rowStep w acc row).2 =
         (fold_left (childLinkStep w (ID row)) l (prefix, 0, acc.2)).2)
  ∧ (∀ rows : list Row,
       (collect rows).2 =
         rows ≫= (λ r,
           (fold_left (childLinkStep (maxIDLength rows) (ID r))
              (EntriesSortedByKey (delete "" (ChildLinks r))) ("", 0, [])).2)).
Proof.
  intros m visited. subst m visited.
  assert (∀ w' id (st : string * nat * list string) links,
            childLinkStep w' id st ("", links) = st) as Hskip.
  { intros w' id st links. by destruct st as [[prefix i] parameters]. }
  assert (∀ w' id (n : gmap string (list ResolvedChildLink)) st,
            fold_left (childLinkStep w' id) (EntriesSortedByKey n) st =
            fold_left (childLinkStep w' id)
              (EntriesSortedByKey (delete "" n)) st) as Hdelete.
  { intros w' id n st. destruct (n !! "") as [links|] eqn:Hn.
    - rewrite (EntriesSortedByKey_empty_key n links Hn). cbn [fold_left].
      by rewrite Hskip.
    - by rewrite delete_id. }
  assert (∀ prefix,
            (rowStep w acc row).2 =
              (fold_left (childLinkStep w (ID row))
                 (EntriesSortedByKey (ChildLinks row)) (prefix, 0, acc.2)).2)
    as Hpass.
  { intros prefix. by rewrite rowStep_lines, childLinkFold_lines. }
  split; [apply EntriesSortedByKey_keys_sorted |].
  split; [| split; [| split; [| split; [| split; [| split]]]]].
  - intros k. rewrite list_elem_of_fmap. split.
    + intros ([k' v] & -> & Hin). apply EntriesSortedByKey_elem in Hin. eauto.
    + intros [v Hv]. exists (k, v). split; [done |].
      by apply EntriesSortedByKey_elem.
  - intros l Hp Hs. symmetry. by apply EntriesSortedByKey_unique.
  - intros st links. apply Hskip.
  - intros st. apply Hdelete.
  - intros prefix l Hp Hs.
    rewrite (EntriesSortedByKey_unique _ _ Hp Hs). apply Hpass.
  - intros prefix l Hp Hs.
    rewrite (EntriesSortedByKey_unique _ _ Hp Hs), <- Hdelete. apply Hpass.
  - intros rows. rewrite collect_lines. cbn [snd].
    apply list_bind_ext; [| done]. intros r.
    by rewrite <- Hdelete, childLinkFold_lines.
Qed.

Section Handler.

Context {Arguments Client QueryPlan Row : Type} `{!PlanRow Row}.

Variable Decode : Arguments → planRequest → planRequest * option error.
Variable NewClient : string → Client + error.
Variable AnalyzeQuery : Client → string → QueryPlan + error.
Variable ProcessPlan : QueryPlan → list Row + error.
Variable Format : QueryPlan → string.
Variable Render : tablewriter.Table → string.

(** C9. When decoding the arguments fails, [mapToStruct] hands back the
    zero request next to the error, and the handler goes on as for the
    zero request: it asks for a client of the database path built from
    empty strings, and what it returns is decided by that call and the
    ones after it, not by the decoding error.  The handler of the earlier
    revision does the same. *)
Theorem planHandler_discards_decode_error (request : Arguments)
    (partial : planRequest) (decodeError : error) :
  Decode request zeroPlanRequest = (partial, Some decodeError) →
  let outcome :=
    planHandler Decode NewClient AnalyzeQuery ProcessPlan Format Render
      request in
  mapToStruct zeroPlanRequest Decode request =
    (zeroPlanRequest, Some decodeError)
  ∧ outcome =
      planHandlerFrom NewClient AnalyzeQuery ProcessPlan Format Render
        zeroPlanRequest
  ∧ head outcome.2 = Some (CallNewClient "projects//instances//databases/")
  ∧ (∀ e : error,
       NewClient "projects//instances//databases/" = inr e →
       outcome =
         ((None, Some e), [CallNewClient "projects//instances//databases/"]))
  ∧ (∀ client : Client,
       NewClient "projects//instances//databases/" = inl client →
       outcome.2 =
         [CallNewClient "projects//instances//databases/";
          CallAnalyzeQuery ""; CallClose])
  ∧ Earlier.planHandler Decode NewClient AnalyzeQuery Format request =
      Earlier.planHandlerFrom NewClient AnalyzeQuery Format zeroPlanRequest
  ∧ head (Earlier.planHandler Decode NewClient AnalyzeQuery Format request).2 =
      Some (CallNewClient "projects//instances//databases/").
Proof.
  intros Hdecode outcome. subst outcome.
  assert (mapToStruct zeroPlanRequest Decode request =
            (zeroPlanRequest, Some decodeError)) as Hmap.
  { unfold mapToStruct. by rewrite Hdecode. }
  unfold planHandler, Earlier.planHandler. rewrite Hmap.
  split; [done |]. split; [done |].
  unfold planHandlerFrom, Earlier.planHandlerFrom. simpl.
  change (databasePath "" "" "") with "projects//instances//databases/".
  destruct (NewClient "projects//instances//databases/") as [client|e];
    (split; [done |]); (split; [intros; by simplify_eq |]);
    (split; [intros; by simplify_eq |]); done.
Qed.

End Handler.

(** * The statements at concrete inputs *)

(** The map enumerates the sample links in another order than the sorted
    one. *)
Example association_order_differs :
  (map_to_list Sample.mixedLinks).*1 = ["Right"; "Left"; ""]
  ∧ (EntriesSortedByKey Sample.mixedLinks).*1 = [""; "Left"; "Right"].
Proof. split; by vm_compute. Qed.

Example scenario_report :
  (printResult Sample.Render Sample.plan).1 =
    Sample.Render (buildTable Sample.plan) +:+
    "Predicates(identified by ID):" +:+ Str.nl +:+ " 1: a=b" +:+ Str.nl
  ∧ (collect Sample.plan).2 = ["1: Left: Scan(L)"; "   Right: $r=Scan(R)"].
Proof. split; by vm_compute. Qed.

Lemma printResult_report_witness :
  (collect Sample.plan).2 ≠ []
  ∧ shown <$> [Sample.bareJoinRow; Sample.scanL; Sample.scanR] =
      shown <$> Sample.plan
  ∧ printResult Sample.Render [Sample.bareJoinRow; Sample.scanL; Sample.scanR] =
      printResult Sample.Render Sample.plan
  ∧ (printResult Sample.Render [Sample.scanL; Sample.scanR]).1 =
      Sample.Render (buildTable [Sample.scanL; Sample.scanR]).
Proof.
  split; [by vm_compute |]. split; [reflexivity |]. split.
  - destruct (printResult_report Sample.Render Sample.plan) as (_ & Hsame & _).
    apply Hsame. reflexivity.
  - destruct (printResult_report Sample.Render [Sample.scanL; Sample.scanR])
      as (_ & _ & _ & Hbare).
    apply Hbare; [discriminate | repeat constructor].
Defined.

Lemma maxIDLength_largest_witness :
  Sample.idRows ≠ []
  ∧ Forall (λ row, (0 ≤ ID row)%Z) Sample.idRows
  ∧ maxIDLength Sample.idRows = String.length (Fmt.Sprint 15)
  ∧ maxIDLength Sample.idRows = 2
  ∧ (10 ^ 1 ≤ 15 < 10 ^ 2)%Z.
Proof.
  assert (Forall (λ row, (0 ≤ ID row)%Z) Sample.idRows) as Hpos.
  { repeat constructor; simpl; lia. }
  split; [discriminate |]. split; [exact Hpos |].
  destruct (maxIDLength_largest Sample.idRows)
    as (_ & _ & Htop & Hdigits & Hthree).
  split; [apply Htop; [discriminate | exact Hpos] |].
  split; [apply Hthree; reflexivity |].
  apply Hdigits; [discriminate | exact Hpos | reflexivity].
Defined.

Lemma prefix_restarts_per_row_witness :
  Predicates Sample.joinRow = ["a=b"]
  ∧ Predicates Sample.limitRow = ["c > 0"]
  ∧ (fold_left (rowStep 1) [Sample.joinRow; Sample.limitRow] ([], [])).1 =
      ["1: a=b"; "2: c > 0"].
Proof.
  split; [reflexivity |]. split; [reflexivity |].
  destruct (prefix_restarts_per_row [Sample.joinRow; Sample.limitRow])
    as (_ & _ & Htwo).
  apply (Htwo 1 ([], []) Sample.joinRow Sample.limitRow "a=b" "c > 0");
    reflexivity.
Defined.

Lemma describeLink_rendering_witness :
  Str.Join (describeLink <$> [Sample.link "" ""]) ", " = ""
  ∧ (∃ prefix' : string,
       childLinkStep 1 7 ("", 0, []) ("Left", [Sample.link "" ""]) =
         (prefix', 0, []))
  ∧ "Right" ≠ ""
  ∧ Str.Join (describeLink <$> [Sample.link "r" "Scan(R)"; Sample.link "" "T"])
      ", " ≠ ""
  ∧ (∃ prefix' : string,
       childLinkStep 1 7 ("", 0, [])
         ("Right", [Sample.link "r" "Scan(R)"; Sample.link "" "T"]) =
         (prefix', 1, [prefix' +:+ " " +:+ "Right" +:+ ": " +:+ "$r=Scan(R), T"])).
Proof.
  destruct describeLink_rendering as (_ & _ & _ & _ & Hnone & Hone).
  split; [reflexivity |].
  split; [apply Hnone; reflexivity |].
  split; [discriminate |]. split; [discriminate |].
  apply (Hone 1 7%Z "" 0 [] "Right"
           [Sample.link "r" "Scan(R)"; Sample.link "" "T"]); discriminate.
Defined.

Lemma childLinks_sorted_keys_witness :
  (map_to_list (ChildLinks Sample.mixedRow)).*1 = ["Right"; "Left"; ""]
  ∧ (EntriesSortedByKey (ChildLinks Sample.mixedRow)).*1 = [""; "Left"; "Right"]
  ∧ is_Some (ChildLinks Sample.mixedRow !! "Left")
  ∧ "Left" ∈ (EntriesSortedByKey (ChildLinks Sample.mixedRow)).*1
  ∧ [("Left", [Sample.link "" "Scan(L)"]);
     ("Right", [Sample.link "r" "Scan(R)"])]
      ≡ₚ map_to_list (delete "" (ChildLinks Sample.mixedRow))
  ∧ StronglySorted entryLe
      [("Left", [Sample.link "" "Scan(L)"]);
       ("Right", [Sample.link "r" "Scan(R)"])]
  ∧ (rowStep 1 ([], []) Sample.mixedRow).2 =
      (fold_left (childLinkStep 1 7)
         [("Left", [Sample.link "" "Scan(L)"]);
          ("Right", [Sample.link "r" "Scan(R)"])] ("", 0, [])).2
  ∧ (rowStep 1 ([], []) Sample.mixedRow).2 =
      ["7: Left: Scan(L)"; "   Right: $r=Scan(R)"].
Proof.
  destruct (childLinks_sorted_keys Sample.mixedRow 1 ([], []))
    as (_ & Hkeys & _ & _ & _ & _ & Hpass & _).
  split; [vm_compute; reflexivity |]. split; [vm_compute; reflexivity |].
  assert (is_Some (ChildLinks Sample.mixedRow !! "Left")) as Hleft
    by (vm_compute; eexists; reflexivity).
  split; [exact Hleft |]. split; [apply Hkeys; exact Hleft |].
  assert ([("Left", [Sample.link "" "Scan(L)"]);
           ("Right", [Sample.link "r" "Scan(R)"])]
            ≡ₚ map_to_list (delete "" (ChildLinks Sample.mixedRow))) as Hperm.
  { replace (map_to_list (delete "" (ChildLinks Sample.mixedRow)))
      with [("Right", [Sample.link "r" "Scan(R)"]);
            ("Left", [Sample.link "" "Scan(L)"])]
      by (vm_compute; reflexivity).
    apply Permutation_swap. }
  assert (StronglySorted entryLe
            [("Left", [Sample.link "" "Scan(L)"]);
             ("Right", [Sample.link "r" "Scan(R)"])]) as Hsorted.
  { repeat constructor. }
  split; [exact Hperm |]. split; [exact Hsorted |].
  split; [exact (Hpass "" _ Hperm Hsorted) |].
  vm_compute. reflexivity.
Defined.

Lemma planHandler_discards_decode_error_witness :
  Sample.Decode Sample.badRequest zeroPlanRequest =
    ({| Query := ""; Project := "p"; Instance_ := "i"; Database := "" |},
     Some "expected a string: query")
  ∧ head (planHandler Sample.Decode Sample.NewClient Sample.AnalyzeQuery
            Sample.ProcessPlan Sample.Format Sample.Render
            Sample.badRequest).2 =
      Some (CallNewClient "projects//instances//databases/")
  ∧ (planHandler Sample.Decode Sample.NewClient Sample.AnalyzeQuery
       Sample.ProcessPlan Sample.Format Sample.Render Sample.badRequest).1.2 =
      None.
Proof.
  split; [reflexivity |].
  destruct (planHandler_discards_decode_error Sample.Decode Sample.NewClient
              Sample.AnalyzeQuery Sample.ProcessPlan Sample.Format
              Sample.Render Sample.badRequest
              {| Query := ""; Project := "p"; Instance_ := "i"; Database := "" |}
              "expected a string: query" eq_refl)
    as (_ & Hfrom & Hhead & _).
  split; [exact Hhead |]. rewrite Hfrom. by vm_compute.
Defined.

Lemma printResult_ends_with_newline_witness :
  Str.endsWithLF (Sample.Render (buildTable Sample.plan)) = true
  ∧ ((printResult Sample.Render Sample.plan).1 = "" ∨
     ∃ body : string, (printResult Sample.Render Sample.plan).1 = body +:+ Str.nl).
Proof.
  assert (Str.endsWithLF (Sample.Render (buildTable Sample.plan)) = true)
    as Hlf by (by vm_compute).
  split; [exact Hlf |].
  apply (printResult_ends_with_newline Sample.Render Sample.plan).
  right. exact Hlf.
Defined.

(** * Further properties of the code *)

(** ** Widths and prefixes *)

Lemma formatBits_nonempty (fuel : nat) (u : N) (acc : string) :
  0 < fuel → 1 ≤ Fmt.countDigits fuel u.
Proof. destruct fuel; [lia |]. intros _. simpl. destruct (u <? 10)%N; lia. Qed.

Lemma Sprint_nonempty (n : Z) : 1 ≤ String.length (Fmt.Sprint n).
Proof.
  unfold Fmt.Sprint. destruct (n <? 0)%Z; [simpl; lia |].
  unfold Fmt.formatUint. rewrite FmtFacts.formatBits_length.
  pose proof (formatBits_nonempty (Fmt.digitFuel (Z.to_N n)) (Z.to_N n) ""
                ltac:(unfold Fmt.digitFuel; lia)).
  lia.
Qed.

Lemma max_list_append (xs ys : list nat) :
  max_list (xs ++ ys) = Nat.max (max_list xs) (max_list ys).
Proof.
  induction xs as [|x xs IH]; [done |].
  change (max_list ((x :: xs) ++ ys)) with (Nat.max x (max_list (xs ++ ys))).
  change (max_list (x :: xs)) with (Nat.max x (max_list xs)).
  rewrite IH. lia.
Qed.

Lemma idPrefix_length (w : nat) (id : Z) :
  String.length (Fmt.Sprint id) ≤ w →
  String.length (Design.idPrefix w id) = w + 1.
Proof.
  intros Hfit. unfold Design.idPrefix, Fmt.padLeft.
  rewrite !StrFacts.length_append, StrFacts.length_Repeat_sp. simpl. lia.
Qed.

Lemma blankPrefix_length (w : nat) :
  String.length (Design.blankPrefix w) = w + 1.
Proof. apply StrFacts.length_Repeat_sp. Qed.

Section Widths.

Context {Row : Type} `{!PlanRow Row}.

Lemma printed_length_le (rows : list Row) (row : Row) :
  row ∈ rows → String.length (Fmt.Sprint (ID row)) ≤ maxIDLength rows.
Proof.
  intros Hin. rewrite maxIDLength_max_list. apply max_list_elem_of_le.
  apply list_elem_of_fmap. by exists row.
Qed.

(** X1. The width of a concatenation is the greater of the two widths;
    the printed ID of every row fits in the width, which is therefore at
    least 1 as soon as there is a row. *)
Theorem maxIDLength_bounds (rows rows' : list Row) :
  maxIDLength (rows ++ rows') = Nat.max (maxIDLength rows) (maxIDLength rows')
  ∧ (∀ row : Row, row ∈ rows →
       1 ≤ String.length (Fmt.Sprint (ID row)) ≤ maxIDLength rows)
  ∧ (rows ≠ [] → 1 ≤ maxIDLength rows).
Proof.
  assert (∀ row : Row, row ∈ rows →
            1 ≤ String.length (Fmt.Sprint (ID row)) ≤ maxIDLength rows) as Hfit.
  { intros row Hin. split; [apply Sprint_nonempty | by apply printed_length_le]. }
  split; [| split; [exact Hfit |]].
  - rewrite !maxIDLength_max_list, fmap_app. apply max_list_append.
  - destruct rows as [|row rest]; [done |]. intros _.
    destruct (Hfit row) as [? ?]; [by left | lia].
Qed.

(** X2. The predicate lines stand one to one, in order, for the predicates
    of the rows in order; each is a prefix, a blank and the predicate, and
    every prefix has the same length, [maxIDLength + 1], whatever the
    IDs. *)
Theorem predicate_lines_aligned (rows : list Row) :
  Forall2
    (λ line predicate,
       ∃ prefix : string,
         line = prefix +:+ " " +:+ predicate
         ∧ String.length prefix = maxIDLength rows + 1)
    (collect rows).1 (rows ≫= Predicates).
Proof.
  rewrite collect_lines. cbn [fst].
  pose proof (printed_length_le rows) as Hfit.
  generalize dependent (maxIDLength rows). intros w Hfit.
  induction rows as [|row rest IH]; [constructor |].
  rewrite !bind_cons. apply Forall2_app.
  - assert (String.length (Fmt.Sprint (ID row)) ≤ w) as Hrow
      by (apply Hfit; by left).
    destruct (Predicates row) as [|p more]; [constructor |].
    constructor.
    + exists (Design.idPrefix w (ID row)). split; [done |].
      by apply idPrefix_length.
    + apply Forall2_fmap_l, Forall_Forall2_diag, Forall_forall.
      intros q _. exists (Design.blankPrefix w). split; [done |].
      apply blankPrefix_length.
  - apply IH. intros r Hr. apply Hfit. by right.
Qed.

(** X3. Every child-link line comes from a non-empty key of some row's
    map whose links join to a non-empty text; it is a prefix of length
    [maxIDLength + 1], a blank, the key, a colon, a blank and the text. *)
Theorem parameter_lines_aligned (rows : list Row) :
  Forall
    (λ line,
       ∃ (prefix typ : string) (row : Row) (links : list ResolvedChildLink),
         line = prefix +:+ " " +:+ typ +:+ ": " +:+
                  Str.Join (describeLink <$> links) ", "
         ∧ String.length prefix = maxIDLength rows + 1
         ∧ row ∈ rows ∧ ChildLinks row !! typ = Some links
         ∧ typ ≠ "" ∧ Str.Join (describeLink <$> links) ", " ≠ "")
    (collect rows).2.
Proof.
  rewrite collect_lines. cbn [snd].
  pose proof (printed_length_le rows) as Hfit.
  generalize dependent (maxIDLength rows). intros w Hfit.
  apply Forall_bind, Forall_forall. intros row Hrow.
  assert (String.length (Fmt.Sprint (ID row)) ≤ w) as Hlen by by apply Hfit.
  assert (∀ t, t ∈ Design.producing (EntriesSortedByKey (ChildLinks row)) →
            ChildLinks row !! t.1 = Some t.2 ∧ t.1 ≠ ""
            ∧ Str.Join (describeLink <$> t.2) ", " ≠ "") as Hprod.
  { intros [typ links] Ht. unfold Design.producing in Ht.
    apply list_elem_of_filter in Ht as [[Htyp Hjoin] Hin].
    apply EntriesSortedByKey_elem in Hin.
    by rewrite Join_describeLink. }
  unfold compose, Design.childLinkLines.
  destruct (Design.producing (EntriesSortedByKey (ChildLinks row)))
    as [|first more]; [constructor |].
  constructor.
  - destruct (Hprod first) as (Hlook & Htyp & Hjoin); [by left |].
    exists (Design.idPrefix w (ID row)), first.1, row, first.2.
    rewrite Join_describeLink in *. split; [done |].
    split; [by apply idPrefix_length | done].
  - apply Forall_fmap, Forall_forall. intros t Ht.
    destruct (Hprod t) as (Hlook & Htyp & Hjoin); [by right |].
    exists (Design.blankPrefix w), t.1, row, t.2.
    rewrite Join_describeLink in *. split; [done |].
    split; [apply blankPrefix_length | done].
Qed.

(** X4. The table handed to the writer has the header [ID], [Operator],
    the two switches off, and one line of two cells for every row, in the
    order of the rows: appending rows appends their lines. *)
Theorem buildTable_rows_in_order (rows rows' : list Row) :
  tablewriter.lines (buildTable rows) = (λ row, [FormatID row; Text row]) <$> rows
  ∧ length (tablewriter.lines (buildTable rows)) = length rows
  ∧ tablewriter.lines (buildTable (rows ++ rows')) =
      tablewriter.lines (buildTable rows) ++ tablewriter.lines (buildTable rows')
  ∧ tablewriter.headers (buildTable rows) = ["ID"; "Operator"]
  ∧ tablewriter.autoWrap (buildTable rows) = false
  ∧ tablewriter.autoFmt (buildTable rows) = false
  ∧ tablewriter.columnsAlign (buildTable rows) =
      [tablewriter.ALIGN_RIGHT; tablewriter.ALIGN_LEFT].
Proof.
  rewrite !buildTable_eq. cbn [tablewriter.lines tablewriter.headers
    tablewriter.autoWrap tablewriter.autoFmt tablewriter.columnsAlign].
  rewrite length_fmap, fmap_app. done.
Qed.

End Widths.

Section FinalNewline.

Context {Row : Type} `{!PlanRow Row}.
Variable Render : tablewriter.Table → string.

(** X15. As soon as one row has a predicate, the report ends in a line
    feed, whatever the table writer wrote before the predicate section. *)
Theorem report_final_newline (rows : list Row) :
  ((collect rows).1 ≠ [] →
   Str.endsWithLF (printResult Render rows).1 = true)
  ∧ ((∃ row : Row, row ∈ rows ∧ Predicates row ≠ []) →
     Str.endsWithLF (printResult Render rows).1 = true).
Proof.
  assert ((collect rows).1 ≠ [] →
          Str.endsWithLF (printResult Render rows).1 = true) as Hlines.
  { intros Hne. rewrite printResult_eq. cbn [fst].
    pose proof (predicateLines_end_with_LF (collect rows).1 Hne) as Hend.
    unfold Design.predicateSection.
    destruct (collect rows).1 as [|s predicates]; [done |].
    assert (∀ x : string, Str.endsWithLF x = true → x ≠ "") as Hnonempty
      by (by intros x Hx ->).
    rewrite StrFacts.endsWithLF_append by done.
    rewrite StrFacts.endsWithLF_append by done.
    rewrite StrFacts.endsWithLF_append; [done | by apply Hnonempty]. }
  split; [exact Hlines |].
  intros (row & Hin & Hpred). apply Hlines.
  rewrite collect_lines. cbn [fst]. intros Hnil.
  destruct (Predicates row) as [|p more] eqn:Hp; [done |].
  assert (Design.idPrefix (maxIDLength rows) (ID row) +:+ " " +:+ p
            ∈ rows ≫= (λ r, Design.predicateLines (maxIDLength rows) (ID r)
                              (Predicates r))) as Helem.
  { apply list_elem_of_bind. exists row. split; [| done].
    rewrite Hp. by left. }
  rewrite Hnil in Helem. by apply not_elem_of_nil in Helem.
Qed.

End FinalNewline.

(** ** When a link type is passed over *)

Lemma Join_two_nonempty (e e' : string) (rest : list string) :
  Str.Join (e :: e' :: rest) ", " ≠ "".
Proof.
  cbn [Str.Join]. intros Hnil.
  apply StrFacts.append_eq_nil in Hnil as [_ Hnil]. discriminate.
Qed.

(** X5. The joined text of a link type is empty, so that the type gives no
    line, exactly when the type has no link or a single link without
    variable name and without description.  Two links or more always give
    a text, be they all empty. *)
Theorem join_empty_iff (links : list ResolvedChildLink) :
  Str.Join (describeLink <$> links) ", " = "" ↔
    links = [] ∨
    ∃ item : ResolvedChildLink,
      links = [item] ∧ GetVariable (ChildLink item) = ""
      ∧ GetDescription (GetShortRepresentation (Child item)) = "".
Proof.
  assert (∀ item, describeLink item = "" ↔
            GetVariable (ChildLink item) = ""
            ∧ GetDescription (GetShortRepresentation (Child item)) = "")
    as Hitem.
  { intros item. unfold describeLink. case_decide as Hv.
    - split; [discriminate | intros [? _]; done].
    - rewrite Hv. split; [done | by intros [_ ?]]. }
  destruct links as [|item [|item' rest]].
  - split; [by left | done].
  - cbn [fmap list_fmap Str.Join]. rewrite Hitem. split.
    + intros Hboth. right. by exists item.
    + intros [? | (item0 & [= <-] & Hboth)]; done.
  - split.
    + intros Hnil. by apply Join_two_nonempty in Hnil.
    + intros [? | (item0 & ? & _)]; done.
Qed.

(** ** Database paths *)

Lemma append_slash_inj (a a' x x' : string) :
  hasSlash a = false → hasSlash a' = false →
  a +:+ String "/" x = a' +:+ String "/" x' → a = a' ∧ x = x'.
Proof.
  revert a'. induction a as [|c a IH]; intros [|c' a'] Ha Ha' Heq;
    rewrite ?StrFacts.append_cons, ?StrFacts.append_nil_l in Heq.
  - by simplify_eq.
  - by simplify_eq.
  - by simplify_eq.
  - simpl in Ha, Ha'. apply orb_false_iff in Ha as [_ Ha].
    apply orb_false_iff in Ha' as [_ Ha'].
    injection Heq as -> Heq. destruct (IH a' Ha Ha' Heq) as [-> ->]. done.
Qed.

(** X6. Database paths tell databases apart: when neither the project nor
    the instance contains a slash, equal paths come from equal project,
    instance and database. *)
Theorem databasePath_injective (p i d p' i' d' : string) :
  hasSlash p = false → hasSlash i = false →
  hasSlash p' = false → hasSlash i' = false →
  databasePath p i d = databasePath p' i' d' →
  p = p' ∧ i = i' ∧ d = d'.
Proof.
  intros Hp Hi Hp' Hi' Heq. unfold databasePath in Heq.
  apply (inj (String.append "projects/")) in Heq.
  change ("/instances/" +:+ ?x) with (String "/" ("instances/" +:+ x)) in Heq.
  apply append_slash_inj in Heq as [-> Heq]; [| done..].
  apply (inj (String.append "instances/")) in Heq.
  change ("/databases/" +:+ ?x) with (String "/" ("databases/" +:+ x)) in Heq.
  apply append_slash_inj in Heq as [-> Heq]; [| done..].
  apply (inj (String.append "databases/")) in Heq. done.
Qed.

Lemma databasePath_injective_witness :
  hasSlash "proj" = false ∧ hasSlash "inst" = false
  ∧ databasePath "proj" "inst" "db" = databasePath "proj" "inst" "db"
  ∧ ("proj" = "proj" ∧ "inst" = "inst" ∧ "db" = "db").
Proof.
  split; [reflexivity |]. split; [reflexivity |]. split; [reflexivity |].
  apply (databasePath_injective "proj" "inst" "db" "proj" "inst" "db");
    reflexivity.
Defined.

(** Without the condition two different databases can share a path. *)
Example databasePath_slash_collision :
  databasePath "a/instances/b" "c" "d" =
    databasePath "a" "b/instances/c" "d".
Proof. reflexivity. Qed.

(** ** The ID can be read back from a prefix *)

Module ReadFacts.
Import Fmt Read.

Lemma digitValue_digitChar (d : N) :
  (d < 10)%N → digitValue (digitChar d) = Some d.
Proof.
  intros Hd. unfold digitValue, digitChar.
  rewrite N_ascii_embedding by lia.
  destruct (N.leb_spec 48 (48 + d)), (N.leb_spec (48 + d) 57); try lia.
  simpl. f_equal. lia.
Qed.

Lemma formatBits_append (fuel : nat) (u : N) (acc t : string) :
  formatBits fuel u acc +:+ t = formatBits fuel u (acc +:+ t).
Proof.
  revert u acc. induction fuel as [|fuel IH]; intros u acc; simpl; [done |].
  destruct (u <? 10)%N; [done |]. by rewrite IH.
Qed.

Lemma readUintFrom_formatBits (fuel : nat) (u : N) (acc : string) :
  N.to_nat (N.log2 u) < fuel →
  readUintFrom 0 (formatBits fuel u acc) = readUintFrom u acc.
Proof.
  revert u acc. induction fuel as [|fuel IH]; intros u acc Hfuel; [lia |].
  simpl. destruct (N.ltb_spec u 10) as [Hu|Hu].
  - simpl. rewrite digitValue_digitChar by done. f_equal.
  - pose proof (FmtFacts.log2_div10 u Hu).
    rewrite IH by lia. simpl.
    rewrite digitValue_digitChar by (apply N.mod_lt; lia).
    f_equal. pose proof (N.div_mod u 10 ltac:(lia)). lia.
Qed.

Lemma formatBits_keeps_digit (fuel : nat) (u : N) (acc : string) :
  startsWithDigit acc → startsWithDigit (formatBits fuel u acc).
Proof.
  revert u acc. induction fuel as [|fuel IH]; intros u acc Hacc; simpl; [done |].
  destruct (N.ltb_spec u 10) as [Hu|Hu].
  - by exists u, acc.
  - apply IH. exists (u mod 10)%N, acc. split; [apply N.mod_lt; lia | done].
Qed.

Lemma formatUint_startsWithDigit (u : N) (t : string) :
  startsWithDigit (formatUint u +:+ t).
Proof.
  unfold formatUint, digitFuel. rewrite formatBits_append. simpl.
  destruct (N.ltb_spec u 10) as [Hu|Hu].
  - by eexists u, _.
  - apply formatBits_keeps_digit. eexists (u mod 10)%N, _.
    split; [apply N.mod_lt; lia | done].
Qed.

Lemma readUintFrom_formatUint (u : N) (rest : string) :
  readUintFrom 0 (formatUint u +:+ ":" +:+ rest) = u.
Proof.
  unfold formatUint. rewrite formatBits_append.
  rewrite readUintFrom_formatBits by (unfold digitFuel; lia). done.
Qed.

Lemma skipBlanks_Repeat (k : nat) (s : string) :
  skipBlanks (Str.Repeat " " k +:+ s) = skipBlanks s.
Proof. induction k as [|k IH]; [done |]. exact IH. Qed.

Lemma digitChar_not_blank_or_minus (d : N) :
  (d < 10)%N →
  Ascii.eqb (digitChar d) " " = false ∧ Ascii.eqb (digitChar d) "-" = false.
Proof.
  intros Hd. pose proof (digitValue_digitChar d Hd) as Hv.
  split; apply Ascii.eqb_neq; intros Heq; by rewrite Heq in Hv.
Qed.

Lemma readID_Sprint (k : nat) (n : Z) (rest : string) :
  readID (Str.Repeat " " k +:+ Sprint n +:+ ":" +:+ rest) = n.
Proof.
  unfold readID. rewrite skipBlanks_Repeat. unfold Sprint.
  destruct (Z.ltb_spec n 0) as [Hneg|Hpos].
  - rewrite StrFacts.append_cons. simpl.
    rewrite readUintFrom_formatUint. lia.
  - pose proof (readUintFrom_formatUint (Z.to_N n) rest) as Hread.
    destruct (formatUint_startsWithDigit (Z.to_N n) (":" +:+ rest))
      as (d & tail & Hd & Heq).
    rewrite Heq in Hread |- *.
    destruct (digitChar_not_blank_or_minus d Hd) as [Hblank Hminus].
    cbn [skipBlanks]. rewrite Hblank, Hminus, Hread. lia.
Qed.

End ReadFacts.

(** X7. The ID is the integer read at the start of anything that begins
    with the ID prefix, for every width and every ID, negative ones
    included; so two prefixes of one width are equal only for equal IDs. *)
Theorem idPrefix_read_back (w : nat) (id : Z) (rest : string) :
  Read.readID (Fmt.Sprintf_width_d_colon w id +:+ rest) = id
  ∧ (∀ id' : Z,
       Fmt.Sprintf_width_d_colon w id = Fmt.Sprintf_width_d_colon w id' →
       id = id').
Proof.
  assert (∀ (n : Z) (t : string),
            Read.readID (Fmt.Sprintf_width_d_colon w n +:+ t) = n) as Hread.
  { intros n t. unfold Fmt.Sprintf_width_d_colon, Fmt.padLeft.
    rewrite !StrFacts.append_assoc. apply ReadFacts.readID_Sprint. }
  split; [apply Hread |].
  intros id' Heq. rewrite <- (Hread id ""), <- (Hread id' ""). by rewrite Heq.
Qed.

Lemma idPrefix_read_back_witness :
  Fmt.Sprintf_width_d_colon 4 (-15) = Fmt.Sprintf_width_d_colon 4 (-15)
  ∧ Read.readID (Fmt.Sprintf_width_d_colon 4 (-15) +:+ " a=b") = (-15)%Z
  ∧ (-15)%Z = (-15)%Z.
Proof.
  destruct (idPrefix_read_back 4 (-15) " a=b") as [Hread Hinj].
  split; [reflexivity |]. split; [exact Hread |]. apply Hinj. reflexivity.
Defined.

(** ** The handlers *)

Section Handlers.

Context {Arguments Client QueryPlan Row : Type} `{!PlanRow Row}.
Context {AdminClient FileDescriptorSet Operation Metadata : Type}.

Variable DecodePlan : Arguments → planRequest → planRequest * option error.
Variable NewClient : string → Client + error.
Variable AnalyzeQuery : Client → string → QueryPlan + error.
Variable ProcessPlan : QueryPlan → list Row + error.
Variable FormatPlan : QueryPlan → string.
Variable Render : tablewriter.Table → string.

Variable DecodeGet : Arguments → GetDDL.request → GetDDL.request * option error.
Variable DecodeEarlierGet :
  Arguments → EarlierGetDDL.request → EarlierGetDDL.request * option error.
Variable DecodeUpdate :
  Arguments → UpdateDDL.request → UpdateDDL.request * option error.
Variable NewDatabaseAdminClient : AdminClient + error.
Variable GetDatabaseDdl :
  AdminClient → string → databasepb.GetDatabaseDdlResponse + error.
Variable Unmarshal : string → FileDescriptorSet + error.
Variable FormatResponse : databasepb.GetDatabaseDdlResponse → string.
Variable FormatDescriptors : FileDescriptorSet → string.
Variable UpdateDatabaseDdl :
  AdminClient → string → list string → Operation + error.
Variable Wait : Operation → Operation * option error.
Variable GetMetadata : Operation → Metadata + error.
Variable FormatMetadata : Metadata → string.

Local Abbreviation plan :=
  (planHandler DecodePlan NewClient AnalyzeQuery ProcessPlan FormatPlan Render).
Local Abbreviation earlierPlan :=
  (Earlier.planHandler DecodePlan NewClient AnalyzeQuery FormatPlan).
Local Abbreviation firstPlan :=
  (First.planHandler DecodePlan NewClient AnalyzeQuery FormatPlan).
Local Abbreviation getDDL :=
  (GetDDL.getDDLHandler DecodeGet NewDatabaseAdminClient GetDatabaseDdl
     Unmarshal FormatResponse FormatDescriptors).
Local Abbreviation earlierGetDDL :=
  (EarlierGetDDL.getDDLHandler DecodeEarlierGet NewDatabaseAdminClient
     GetDatabaseDdl Unmarshal FormatResponse FormatDescriptors).
Local Abbreviation updateDDL :=
  (UpdateDDL.updateDDLHandler DecodeUpdate NewDatabaseAdminClient
     UpdateDatabaseDdl Wait GetMetadata FormatMetadata).

Ltac split_calls :=
  repeat match goal with
    | |- context [match ?x with inl _ => _ | inr _ => _ end] => destruct x eqn:?
    | |- context [match ?x with Some _ => _ | None => _ end] => destruct x eqn:?
    | |- context [let '(_, _) := ?x in _] => destruct x eqn:?
    | |- context [if ?b then _ else _] => destruct b eqn:?
    end.

(** X8. The handlers that check the decoding error return it and make no
    call to the outside when the arguments cannot be decoded, whatever the
    decoder had filled in before it failed. *)
Theorem handlers_stop_on_decode_error (request : Arguments) (e : error) :
  (∀ partial, DecodeGet request GetDDL.zeroRequest = (partial, Some e) →
     getDDL request = ((None, Some e), []))
  ∧ (∀ partial,
       DecodeEarlierGet request EarlierGetDDL.zeroRequest = (partial, Some e) →
       earlierGetDDL request = ((None, Some e), []))
  ∧ (∀ partial, DecodeUpdate request UpdateDDL.zeroRequest = (partial, Some e) →
       updateDDL request = ((None, Some e), []))
  ∧ (∀ partial, DecodePlan request zeroPlanRequest = (partial, Some e) →
       firstPlan request = ((None, Some e), [])).
Proof using Type.
  repeat split; intros partial Hdecode;
    unfold GetDDL.getDDLHandler, EarlierGetDDL.getDDLHandler,
      UpdateDDL.updateDDLHandler, First.planHandler, mapToStruct;
    by rewrite Hdecode.
Qed.

(** X9. Every handler returns exactly one of a result and an error. *)
Theorem handlers_exclusive (request : Arguments) :
  exclusive (plan request).1 = true
  ∧ exclusive (earlierPlan request).1 = true
  ∧ exclusive (firstPlan request).1 = true
  ∧ exclusive (getDDL request).1 = true
  ∧ exclusive (earlierGetDDL request).1 = true
  ∧ exclusive (updateDDL request).1 = true.
Proof using Type.
  repeat split;
    unfold planHandler, planHandlerFrom, Earlier.planHandler,
      Earlier.planHandlerFrom, First.planHandler, GetDDL.getDDLHandler,
      EarlierGetDDL.getDDLHandler, UpdateDDL.updateDDLHandler;
    try rewrite printResult_eq; split_calls; reflexivity.
Qed.

(** X10. On every path of every handler a client that was created is
    closed exactly once, by the last call made; when no client was created
    nothing is closed. *)
Theorem handlers_close_client (request : Arguments) :
  let planReq := (mapToStruct zeroPlanRequest DecodePlan request).1 in
  let planPath :=
    databasePath (Project planReq) (Instance_ planReq) (Database planReq) in
  let firstReq := (DecodePlan request zeroPlanRequest).1 in
  let firstPath :=
    databasePath (Project firstReq) (Instance_ firstReq) (Database firstReq) in
  closedOnce CallClose (succeeded (NewClient planPath)) (plan request).2 = true
  ∧ closedOnce CallClose (succeeded (NewClient planPath))
      (earlierPlan request).2 = true
  ∧ closedOnce CallClose
      (decoded (DecodePlan request zeroPlanRequest)
       && succeeded (NewClient firstPath)) (firstPlan request).2 = true
  ∧ closedOnce CallAdminClose
      (decoded (DecodeGet request GetDDL.zeroRequest)
       && succeeded NewDatabaseAdminClient) (getDDL request).2 = true
  ∧ closedOnce CallAdminClose
      (decoded (DecodeEarlierGet request EarlierGetDDL.zeroRequest)
       && succeeded NewDatabaseAdminClient) (earlierGetDDL request).2 = true
  ∧ closedOnce CallAdminClose
      (decoded (DecodeUpdate request UpdateDDL.zeroRequest)
       && succeeded NewDatabaseAdminClient) (updateDDL request).2 = true.
Proof using Type.
  cbv zeta. repeat split.
  - unfold planHandler, planHandlerFrom.
    destruct (mapToStruct zeroPlanRequest DecodePlan request) as [req err].
    cbn [fst]. by destruct (NewClient _).
  - unfold Earlier.planHandler, Earlier.planHandlerFrom.
    destruct (mapToStruct zeroPlanRequest DecodePlan request) as [req err].
    cbn [fst]. by destruct (NewClient _).
  - unfold First.planHandler, decoded.
    destruct (DecodePlan request zeroPlanRequest) as [req [err|]]; [done |].
    cbn [fst snd]. by destruct (NewClient _).
  - unfold GetDDL.getDDLHandler, mapToStruct, decoded.
    destruct (DecodeGet request GetDDL.zeroRequest) as [req [err|]]; [done |].
    cbn [fst snd]. by destruct NewDatabaseAdminClient.
  - unfold EarlierGetDDL.getDDLHandler, mapToStruct, decoded.
    destruct (DecodeEarlierGet request EarlierGetDDL.zeroRequest)
      as [req [err|]]; [done |].
    cbn [fst snd]. by destruct NewDatabaseAdminClient.
  - unfold UpdateDDL.updateDDLHandler, mapToStruct, decoded.
    destruct (DecodeUpdate request UpdateDDL.zeroRequest) as [req [err|]];
      [done |].
    cbn [fst snd]. destruct NewDatabaseAdminClient as [client|]; [| done].
    destruct (UpdateDatabaseDdl _ _ _) as [op|]; [| done].
    destruct (Wait op) as [op' [err|]]; done.
Qed.

(** X11. Once the arguments are decoded, the client is there and the
    service has answered, [getDDLHandler] returns two texts when the
    descriptors were asked for and otherwise one, the text of the answer
    with its descriptors taken out and its statements kept.  Descriptors
    that cannot be parsed make the call fail even when they were not asked
    for. *)
Theorem getDDLHandler_contents (request : Arguments) (req : GetDDL.request)
    (client : AdminClient) (resp : databasepb.GetDatabaseDdlResponse) :
  let path :=
    databasePath (GetDDL.Project req) (GetDDL.Instance_ req)
      (GetDDL.Database req) in
  DecodeGet request GetDDL.zeroRequest = (req, None) →
  NewDatabaseAdminClient = inl client →
  GetDatabaseDdl client path = inl resp →
  (∀ fds : FileDescriptorSet,
     Unmarshal (databasepb.ProtoDescriptors resp) = inl fds →
     (getDDL request).1 =
       (Some (if GetDDL.IncludeProtoDescriptors req
              then [FormatResponse resp; FormatDescriptors fds]
              else [FormatResponse
                      {| databasepb.Statements := databasepb.Statements resp;
                         databasepb.ProtoDescriptors := "" |}]),
        None))
  ∧ (∀ e : error,
       Unmarshal (databasepb.ProtoDescriptors resp) = inr e →
       (getDDL request).1 = (None, Some e))
  ∧ (getDDL request).2 =
      [CallNewDatabaseAdminClient; CallGetDatabaseDdl path; CallAdminClose].
Proof using Type.
  intros path Hdecode Hclient Hresp. subst path.
  unfold GetDDL.getDDLHandler, mapToStruct.
  rewrite Hdecode, Hclient, Hresp. cbn [fst snd].
  unfold databasepb.GetProtoDescriptors.
  split; [| split; [| done]].
  - intros fds ->. by destruct (GetDDL.IncludeProtoDescriptors req).
  - by intros e ->.
Qed.

(** X12. [updateDDLHandler] makes its calls in one order and stops at the
    first that fails: with the arguments decoded, a failing client creation
    gives the trace of that call alone; a failing update gives creation,
    update, close; a failing wait gives creation, update, wait, close; and
    only after a successful wait is the metadata asked for.  Each failure
    returns the error of the failing call.  The statements of the request
    reach the service as they are.  A result is returned exactly when every
    step succeeded, and it is the text of the metadata. *)
Theorem updateDDLHandler_steps (request : Arguments) :
  let req := (DecodeUpdate request UpdateDDL.zeroRequest).1 in
  let path :=
    databasePath (UpdateDDL.Project req) (UpdateDDL.Instance_ req)
      (UpdateDDL.Database req) in
  let update := CallUpdateDatabaseDdl path (UpdateDDL.Statements req) in
  (updateDDL request).2 ∈
    [ [];
      [CallNewDatabaseAdminClient];
      [CallNewDatabaseAdminClient; update; CallAdminClose];
      [CallNewDatabaseAdminClient; update; CallWait; CallAdminClose];
      [CallNewDatabaseAdminClient; update; CallWait; CallMetadata;
       CallAdminClose] ]
  ∧ (∀ contents : CallToolResult,
       (updateDDL request).1.1 = Some contents ↔
       ∃ (client : AdminClient) (op : Operation) (metadata : Metadata),
         (DecodeUpdate request UpdateDDL.zeroRequest).2 = None
         ∧ NewDatabaseAdminClient = inl client
         ∧ UpdateDatabaseDdl client path (UpdateDDL.Statements req) = inl op
         ∧ (Wait op).2 = None
         ∧ GetMetadata (Wait op).1 = inl metadata
         ∧ contents = [FormatMetadata metadata])
  ∧ ((DecodeUpdate request UpdateDDL.zeroRequest).2 = None →
     (∀ e : error,
        NewDatabaseAdminClient = inr e →
        updateDDL request = ((None, Some e), [CallNewDatabaseAdminClient]))
     ∧ (∀ (client : AdminClient) (e : error),
          NewDatabaseAdminClient = inl client →
          UpdateDatabaseDdl client path (UpdateDDL.Statements req) = inr e →
          updateDDL request =
            ((None, Some e),
             [CallNewDatabaseAdminClient; update; CallAdminClose]))
     ∧ (∀ (client : AdminClient) (op op' : Operation) (e : error),
          NewDatabaseAdminClient = inl client →
          UpdateDatabaseDdl client path (UpdateDDL.Statements req) = inl op →
          Wait op = (op', Some e) →
          updateDDL request =
            ((None, Some e),
             [CallNewDatabaseAdminClient; update; CallWait; CallAdminClose]))
     ∧ (∀ (client : AdminClient) (op op' : Operation) (e : error),
          NewDatabaseAdminClient = inl client →
          UpdateDatabaseDdl client path (UpdateDDL.Statements req) = inl op →
          Wait op = (op', None) →
          GetMetadata op' = inr e →
          updateDDL request =
            ((None, Some e),
             [CallNewDatabaseAdminClient; update; CallWait; CallMetadata;
              CallAdminClose]))
     ∧ (∀ (client : AdminClient) (op op' : Operation) (metadata : Metadata),
          NewDatabaseAdminClient = inl client →
          UpdateDatabaseDdl client path (UpdateDDL.Statements req) = inl op →
          Wait op = (op', None) →
          GetMetadata op' = inl metadata →
          updateDDL request =
            ((Some [FormatMetadata metadata], None),
             [CallNewDatabaseAdminClient; update; CallWait; CallMetadata;
              CallAdminClose]))).
Proof using Type.
  clear DecodePlan NewClient AnalyzeQuery ProcessPlan FormatPlan Render
    DecodeGet DecodeEarlierGet GetDatabaseDdl Unmarshal FormatResponse
    FormatDescriptors.
  cbv zeta. split; [| split].
  - unfold UpdateDDL.updateDDLHandler, mapToStruct.
    destruct (DecodeUpdate request UpdateDDL.zeroRequest) as [req [err|]];
      cbn [fst snd]; [set_solver |].
    destruct NewDatabaseAdminClient as [client|err]; [| set_solver].
    destruct (UpdateDatabaseDdl client _ _) as [op|err]; [| set_solver].
    destruct (Wait op) as [op' [err|]]; set_solver.
  - unfold UpdateDDL.updateDDLHandler, mapToStruct.
    destruct (DecodeUpdate request UpdateDDL.zeroRequest) as [req [err|]];
      cbn [fst snd].
    { intros contents. split; [done |]. by intros (? & ? & ? & ? & _). }
    destruct NewDatabaseAdminClient as [client|err].
    2:{ intros contents. split; [done |]. by intros (? & ? & ? & _ & ? & _). }
    destruct (UpdateDatabaseDdl client _ _) as [op|err] eqn:Hupdate.
    2:{ intros contents. split; [done |].
        intros (? & ? & ? & _ & [= <-] & Hop & _). congruence. }
    destruct (Wait op) as [op' [err|]] eqn:Hwait.
    { intros contents. split; [done |].
      intros (? & ? & ? & _ & [= <-] & Hop & Hw & _).
      rewrite Hupdate in Hop. injection Hop as <-. by rewrite Hwait in Hw. }
    intros contents. split.
    + destruct (GetMetadata op') as [metadata|err] eqn:Hmeta; [| done].
      cbn [fst]. intros [= <-]. exists client, op, metadata.
      rewrite Hwait. cbn [fst snd]. done.
    + intros (client' & op0 & metadata & _ & [= <-] & Hop & _ & Hmeta & ->).
      rewrite Hupdate in Hop. injection Hop as <-.
      rewrite Hwait in Hmeta. cbn [fst] in Hmeta. by rewrite Hmeta.
  - unfold UpdateDDL.updateDDLHandler, mapToStruct.
    destruct (DecodeUpdate request UpdateDDL.zeroRequest) as [req [err|]];
      cbn [fst snd]; [done |]. intros _.
    split; [by intros e -> |].
    split; [by intros client e -> -> |].
    split; [by intros client op op' e -> -> -> |].
    split; [by intros client op op' e -> -> -> -> |].
    by intros client op op' metadata -> -> -> ->.
Qed.

(** X13. [planHandler] returns a result exactly when the client, the
    analysis and the processing of the plan all succeeded, and the result
    is then the text of the plan followed by the report of [printResult];
    an error it returns is the error of one of these three calls. *)
Theorem planHandler_result (request : Arguments) :
  let req := (mapToStruct zeroPlanRequest DecodePlan request).1 in
  let path := databasePath (Project req) (Instance_ req) (Database req) in
  (∀ contents : CallToolResult,
     (plan request).1.1 = Some contents ↔
     ∃ (client : Client) (qp : QueryPlan) (rows : list Row),
       NewClient path = inl client
       ∧ AnalyzeQuery client (Query req) = inl qp
       ∧ ProcessPlan qp = inl rows
       ∧ contents = [FormatPlan qp; (printResult Render rows).1])
  ∧ (∀ e : error,
       (plan request).1.2 = Some e →
       NewClient path = inr e
       ∨ ∃ client : Client,
           NewClient path = inl client
           ∧ (AnalyzeQuery client (Query req) = inr e
              ∨ ∃ qp : QueryPlan,
                  AnalyzeQuery client (Query req) = inl qp
                  ∧ ProcessPlan qp = inr e)).
Proof using Type.
  cbv zeta. unfold planHandler, planHandlerFrom.
  destruct (mapToStruct zeroPlanRequest DecodePlan request) as [req err].
  cbn [fst].
  destruct (NewClient _) as [client|e0] eqn:Hclient.
  2:{ split.
      - intros contents. split; [done |]. by intros (? & ? & ? & ? & _).
      - intros e [= <-]. by left. }
  destruct (AnalyzeQuery client (Query req)) as [qp|e1] eqn:Hqp.
  2:{ split.
      - intros contents. split; [done |].
        intros (? & ? & ? & [= <-] & Hq & _). congruence.
      - intros e [= <-]. right. exists client. split; [done |]. by left. }
  destruct (ProcessPlan qp) as [rows|e2] eqn:Hrows.
  2:{ split.
      - intros contents. split; [done |].
        intros (? & ? & ? & [= <-] & Hq & Hr & _).
        rewrite Hqp in Hq. injection Hq as <-. congruence.
      - intros e [= <-]. right. exists client. split; [done |].
        right. by exists qp. }
  rewrite printResult_eq. cbn [fst snd]. split; [| done].
  intros contents. split.
  - intros [= <-]. exists client, qp, rows. by rewrite printResult_eq.
  - intros (? & qp0 & rows0 & [= <-] & Hq & Hr & ->).
    rewrite Hqp in Hq. injection Hq as <-.
    rewrite Hrows in Hr. injection Hr as <-. by rewrite printResult_eq.
Qed.

(** X14. The second and the third revision of [planHandler] make the same
    calls, and an error of the second is the error of the third.  When the
    arguments decode, the first and the second revision agree altogether.
    When they do not, the first revision makes no call, while the later
    two ask for a client of the path built from empty strings. *)
Theorem plan_revisions_agree (request : Arguments) :
  (plan request).2 = (earlierPlan request).2
  ∧ (∀ e : error,
       (earlierPlan request).1.2 = Some e → (plan request).1.2 = Some e)
  ∧ (∀ req : planRequest,
       DecodePlan request zeroPlanRequest = (req, None) →
       firstPlan request = earlierPlan request)
  ∧ (∀ (partial : planRequest) (e : error),
       DecodePlan request zeroPlanRequest = (partial, Some e) →
       (firstPlan request).2 = []
       ∧ head (earlierPlan request).2 =
           Some (CallNewClient "projects//instances//databases/")
       ∧ head (plan request).2 =
           Some (CallNewClient "projects//instances//databases/")).
Proof using Type.
  split; [| split; [| split]].
  - unfold planHandler, planHandlerFrom, Earlier.planHandler,
      Earlier.planHandlerFrom.
    destruct (mapToStruct zeroPlanRequest DecodePlan request) as [req err].
    by destruct (NewClient _).
  - unfold planHandler, planHandlerFrom, Earlier.planHandler,
      Earlier.planHandlerFrom.
    destruct (mapToStruct zeroPlanRequest DecodePlan request) as [req err].
    intros e. destruct (NewClient _) as [client|]; [| done]. cbn [fst snd].
    destruct (AnalyzeQuery client (Query req)); done.
  - intros req Hdecode.
    unfold First.planHandler, Earlier.planHandler, Earlier.planHandlerFrom,
      mapToStruct.
    by rewrite Hdecode.
  - intros partial e Hdecode.
    unfold First.planHandler, planHandler, planHandlerFrom,
      Earlier.planHandler, Earlier.planHandlerFrom, mapToStruct.
    rewrite Hdecode. simpl.
    change (databasePath "" "" "") with "projects//instances//databases/".
    by destruct (NewClient _).
Qed.

End Handlers.

(** ** The further properties at concrete inputs *)

Lemma maxIDLength_bounds_witness :
  Sample.wideRow ∈ [Sample.filterRow; Sample.wideRow]
  ∧ 1 ≤ String.length (Fmt.Sprint (ID Sample.wideRow))
      ≤ maxIDLength [Sample.filterRow; Sample.wideRow]
  ∧ [Sample.filterRow; Sample.wideRow] ≠ []
  ∧ 1 ≤ maxIDLength [Sample.filterRow; Sample.wideRow].
Proof.
  destruct (maxIDLength_bounds [Sample.filterRow; Sample.wideRow] [])
    as (_ & Hfit & Hpos).
  assert (Sample.wideRow ∈ [Sample.filterRow; Sample.wideRow]) as Hin
    by (right; left).
  split; [exact Hin |]. split; [exact (Hfit _ Hin) |].
  split; [discriminate |]. apply Hpos. discriminate.
Defined.

Lemma handlers_stop_on_decode_error_witness :
  SampleAdmin.DecodeGet Sample.badRequest GetDDL.zeroRequest =
    ({| GetDDL.Project := "p"; GetDDL.Instance_ := "i"; GetDDL.Database := "";
        GetDDL.IncludeProtoDescriptors := false |},
     Some "expected a string: query")
  ∧ GetDDL.getDDLHandler SampleAdmin.DecodeGet
      SampleAdmin.NewDatabaseAdminClient SampleAdmin.GetDatabaseDdl
      SampleAdmin.Unmarshal SampleAdmin.FormatResponse
      SampleAdmin.FormatDescriptors Sample.badRequest =
      ((None, Some "expected a string: query"), [])
  ∧ Sample.Decode Sample.badRequest zeroPlanRequest =
      ({| Query := ""; Project := "p"; Instance_ := "i"; Database := "" |},
       Some "expected a string: query")
  ∧ First.planHandler Sample.Decode Sample.NewClient Sample.AnalyzeQuery
      Sample.Format Sample.badRequest =
      ((None, Some "expected a string: query"), []).
Proof.
  destruct (handlers_stop_on_decode_error Sample.Decode Sample.NewClient
              Sample.AnalyzeQuery Sample.Format SampleAdmin.DecodeGet
              (λ _ r, (r, None)) SampleAdmin.DecodeUpdate
              SampleAdmin.NewDatabaseAdminClient SampleAdmin.GetDatabaseDdl
              SampleAdmin.Unmarshal SampleAdmin.FormatResponse
              SampleAdmin.FormatDescriptors SampleAdmin.UpdateDatabaseDdl
              SampleAdmin.Wait SampleAdmin.GetMetadata
              SampleAdmin.FormatMetadata Sample.badRequest
              "expected a string: query")
    as (Hget & _ & _ & Hfirst).
  split; [reflexivity |]. split; [eapply Hget; reflexivity |].
  split; [reflexivity |]. eapply Hfirst; reflexivity.
Defined.

Lemma getDDLHandler_contents_witness :
  SampleAdmin.DecodeGet SampleAdmin.getRequest GetDDL.zeroRequest =
    ({| GetDDL.Project := "p"; GetDDL.Instance_ := "i"; GetDDL.Database := "d";
        GetDDL.IncludeProtoDescriptors := false |}, None)
  ∧ (GetDDL.getDDLHandler SampleAdmin.DecodeGet
       SampleAdmin.NewDatabaseAdminClient SampleAdmin.GetDatabaseDdl
       SampleAdmin.Unmarshal SampleAdmin.FormatResponse
       SampleAdmin.FormatDescriptors SampleAdmin.getRequest).1 =
      (Some ["statements: CREATE TABLE T (k INT64) PRIMARY KEY (k) proto_descriptors: "],
       None)
  ∧ (GetDDL.getDDLHandler SampleAdmin.DecodeGet
       SampleAdmin.NewDatabaseAdminClient SampleAdmin.GetBrokenDdl
       SampleAdmin.Unmarshal SampleAdmin.FormatResponse
       SampleAdmin.FormatDescriptors SampleAdmin.getRequest).1 =
      (None, Some "cannot parse the descriptors").
Proof.
  split; [reflexivity |]. split.
  - destruct (getDDLHandler_contents SampleAdmin.DecodeGet
                SampleAdmin.NewDatabaseAdminClient SampleAdmin.GetDatabaseDdl
                SampleAdmin.Unmarshal SampleAdmin.FormatResponse
                SampleAdmin.FormatDescriptors SampleAdmin.getRequest
                _ "admin" _ eq_refl eq_refl eq_refl) as (Hok & _ & _).
    apply (Hok "descriptor bytes"). reflexivity.
  - destruct (getDDLHandler_contents SampleAdmin.DecodeGet
                SampleAdmin.NewDatabaseAdminClient SampleAdmin.GetBrokenDdl
                SampleAdmin.Unmarshal SampleAdmin.FormatResponse
                SampleAdmin.FormatDescriptors SampleAdmin.getRequest
                _ "admin" _ eq_refl eq_refl eq_refl) as (_ & Hbad & _).
    apply Hbad. reflexivity.
Defined.

Lemma updateDDLHandler_steps_witness :
  (UpdateDDL.updateDDLHandler SampleAdmin.DecodeUpdate
     SampleAdmin.NewDatabaseAdminClient SampleAdmin.UpdateDatabaseDdl
     SampleAdmin.Wait SampleAdmin.GetMetadata SampleAdmin.FormatMetadata
     SampleAdmin.updateRequest).1.1 = Some ["statements: DROP TABLE T"]
  ∧ (SampleAdmin.DecodeUpdate SampleAdmin.getRequest
       UpdateDDL.zeroRequest).2 = None
  ∧ SampleAdmin.UpdateDatabaseDdl "admin"
      "projects/p/instances/i/databases/d" [] = inr "no statements"
  ∧ UpdateDDL.updateDDLHandler SampleAdmin.DecodeUpdate
      SampleAdmin.NewDatabaseAdminClient SampleAdmin.UpdateDatabaseDdl
      SampleAdmin.Wait SampleAdmin.GetMetadata SampleAdmin.FormatMetadata
      SampleAdmin.getRequest =
      ((None, Some "no statements"),
       [CallNewDatabaseAdminClient;
        CallUpdateDatabaseDdl "projects/p/instances/i/databases/d" [];
        CallAdminClose])
  ∧ UpdateDDL.updateDDLHandler SampleAdmin.DecodeUpdate
      SampleAdmin.NewDatabaseAdminClient SampleAdmin.UpdateDatabaseDdl
      SampleAdmin.Wait SampleAdmin.GetMetadata SampleAdmin.FormatMetadata
      SampleAdmin.updateRequest =
      ((Some ["statements: DROP TABLE T"], None),
       [CallNewDatabaseAdminClient;
        CallUpdateDatabaseDdl "projects/p/instances/i/databases/d"
          ["DROP TABLE T"];
        CallWait; CallMetadata; CallAdminClose]).
Proof.
  split.
  { destruct (updateDDLHandler_steps SampleAdmin.DecodeUpdate
                SampleAdmin.NewDatabaseAdminClient
                SampleAdmin.UpdateDatabaseDdl SampleAdmin.Wait
                SampleAdmin.GetMetadata SampleAdmin.FormatMetadata
                SampleAdmin.updateRequest) as (_ & Hresult & _).
    apply Hresult. exists "admin", ["DROP TABLE T"], ["DROP TABLE T"].
    repeat split; reflexivity. }
  split; [reflexivity |]. split; [reflexivity |]. split.
  - destruct (updateDDLHandler_steps SampleAdmin.DecodeUpdate
                SampleAdmin.NewDatabaseAdminClient
                SampleAdmin.UpdateDatabaseDdl SampleAdmin.Wait
                SampleAdmin.GetMetadata SampleAdmin.FormatMetadata
                SampleAdmin.getRequest) as (_ & _ & Hpaths).
    destruct (Hpaths eq_refl) as (_ & Hupdate & _).
    apply (Hupdate "admin" "no statements"); reflexivity.
  - destruct (updateDDLHandler_steps SampleAdmin.DecodeUpdate
                SampleAdmin.NewDatabaseAdminClient
                SampleAdmin.UpdateDatabaseDdl SampleAdmin.Wait
                SampleAdmin.GetMetadata SampleAdmin.FormatMetadata
                SampleAdmin.updateRequest) as (_ & _ & Hpaths).
    destruct (Hpaths eq_refl) as (_ & _ & _ & _ & Hall).
    apply (Hall "admin" ["DROP TABLE T"] ["DROP TABLE T"] ["DROP TABLE T"]);
      reflexivity.
Defined.

Lemma planHandler_result_witness :
  (planHandler Sample.Decode Sample.NewClient Sample.AnalyzeQuery
     Sample.ProcessPlan Sample.Format Sample.Render
     SampleAdmin.planRequestArgs).1.1 =
    Some ["plan_nodes {}"; (printResult Sample.Render Sample.plan).1].
Proof.
  destruct (planHandler_result Sample.Decode Sample.NewClient
              Sample.AnalyzeQuery Sample.ProcessPlan Sample.Format
              Sample.Render SampleAdmin.planRequestArgs) as (Hresult & _).
  apply Hresult. exists "projects/p/instances/i/databases/d", Sample.plan,
    Sample.plan.
  repeat split; reflexivity.
Defined.

Lemma plan_revisions_agree_witness :
  Sample.Decode SampleAdmin.planRequestArgs zeroPlanRequest =
    ({| Query := "SELECT 1"; Project := "p"; Instance_ := "i";
        Database := "d" |}, None)
  ∧ First.planHandler Sample.Decode Sample.NewClient Sample.AnalyzeQuery
      Sample.Format SampleAdmin.planRequestArgs =
    Earlier.planHandler Sample.Decode Sample.NewClient Sample.AnalyzeQuery
      Sample.Format SampleAdmin.planRequestArgs
  ∧ (First.planHandler Sample.Decode Sample.NewClient Sample.AnalyzeQuery
       Sample.Format Sample.badRequest).2 = []
  ∧ head (Earlier.planHandler Sample.Decode Sample.NewClient
            Sample.AnalyzeQuery Sample.Format Sample.badRequest).2 =
      Some (CallNewClient "projects//instances//databases/").
Proof.
  split; [reflexivity |]. split.
  - destruct (plan_revisions_agree Sample.Decode Sample.NewClient
                Sample.AnalyzeQuery Sample.ProcessPlan Sample.Format
                Sample.Render SampleAdmin.planRequestArgs)
      as (_ & _ & Hsame & _).
    eapply Hsame. reflexivity.
  - destruct (plan_revisions_agree Sample.Decode Sample.NewClient
                Sample.AnalyzeQuery Sample.ProcessPlan Sample.Format
                Sample.Render Sample.badRequest)
      as (_ & _ & _ & Hfail).
    destruct (Hfail _ _ eq_refl) as (Hnone & Hhead & _). by split.
Defined.

Lemma report_final_newline_witness :
  (∃ row, row ∈ Sample.plan ∧ Predicates row ≠ [])
  ∧ Str.endsWithLF (printResult (λ _, "no line feed") Sample.plan).1 = true.
Proof.
  assert (∃ row, row ∈ Sample.plan ∧ Predicates row ≠ []) as Hrow.
  { exists Sample.joinRow. split; [by left | discriminate]. }
  split; [exact Hrow |].
  apply (report_final_newline (λ _, "no line feed") Sample.plan). exact Hrow.
Defined.
